(** * Smart canteen: the order lifecycle of [routes/orders.js]

    A shallow embedding of the Mongoose models ([models/Order], [models/Menu])
    and of the five order handlers of [backend/routes/orders.js]
    (checkout, verify, scan, deliver, cancel), followed by the properties of
    the order lifecycle, of the stock counters and of the QR token.

    Modelling conventions.
    - A [Date] is a number of milliseconds ([N]).  In the first model of
      the handlers a JavaScript [Number] that holds a price, a quantity, a
      stock count or an amount is an integer ([Z]); this is the model of
      the properties that do not depend on the arithmetic (lifecycle,
      token, frames, concrete runs on small integers).  The properties
      that do depend on it (the total of an order, the stock loops) are
      stated on a second model of the same handlers, over an arithmetic
      that is a parameter, with the IEEE-754 doubles as an instance.
    - A Mongo collection of orders is the list of its documents in insertion
      order (no handler ever deletes an order); the [_id] of a document is
      its position in that list, so [findById] is list lookup and [save] is
      list update at that position.  [findOne] returns the first match.
    - The menu collection is a finite map from item ids to documents.
    - What a handler reads from the outside world (the clock, the random
      bytes, the answer of the payment gateway) is an explicit argument.
    - [protect] and [authorize] are middleware outside these files; the
      handlers are modelled from the point where the middleware has let the
      request through, with the authenticated user's id as an argument. *)

From Stdlib Require Import ZArith NArith Lia.
From Stdlib.Strings Require Import Byte.
From Stdlib Require Floats.SpecFloat.
From stdpp Require Import base numbers option list strings gmap fin_maps pretty
  sorting.

Local Open Scope Z_scope.

(** ** models/Menu *)

Module Menu.

Inductive Category :=
| breakfast | lunch | snacks | beverages | dinner | desserts.

Record t := mk {
  itemName : string;
  price : Z;
  stockCount : Z;
  imageURL : string;
  category : Category;
  isAvailable : bool;
  description : string;
  createdAt : N;
  updatedAt : N
}.

(** [menuSchema.pre('save')], both hooks in registration order: refresh
    [updatedAt], then derive [isAvailable] from [stockCount]. *)
Definition pre_save (now : N) (m : t) : t :=
  let m := mk (itemName m) (price m) (stockCount m) (imageURL m)
              (category m) (isAvailable m) (description m) (createdAt m) now in
  mk (itemName m) (price m) (stockCount m) (imageURL m)
     (category m) (0 <? stockCount m) (description m) (createdAt m)
     (updatedAt m).

(** The update document [{ $inc: { stockCount: delta } }], on integer
    counts.  [MenuA.inc_stockCount] below is the same update with the
    addition of the database as a parameter. *)
Definition inc_stockCount (delta : Z) (m : t) : t :=
  mk (itemName m) (price m) (stockCount m + delta) (imageURL m)
     (category m) (isAvailable m) (description m) (createdAt m)
     (updatedAt m).

(** [Menu.findByIdAndUpdate(id, { $inc: { stockCount: delta } })]: a query
    update.  It runs neither the [save] hooks nor (no [runValidators]
    option is given) the schema validators, and does nothing when no
    document has this id. *)
Definition findByIdAndUpdate_inc (id : N) (delta : Z)
    (menus : gmap N t) : gmap N t :=
  alter (inc_stockCount delta) id menus.

End Menu.

(** ** models/Order *)

Module Order.

Inductive PaymentStatus := pending | completed | failed.

Inductive Status :=
| pending_payment | active | scanned | delivered | cancelled.

#[global] Instance Status_eq_dec : EqDecision Status.
Proof. solve_decision. Defined.

(** The enum values as the strings the schema stores. *)
Definition Status_to_string (s : Status) : string :=
  match s with
  | pending_payment => "pending_payment"
  | active => "active"
  | scanned => "scanned"
  | delivered => "delivered"
  | cancelled => "cancelled"
  end.

Record Item := mkItem {
  menuItem : N;
  itemName : string;
  quantity : Z;
  price : Z
}.

Record t := mk {
  studentId : N;
  items : list Item;
  totalAmount : Z;
  razorpayOrderId : string;
  paymentStatus : PaymentStatus;
  qrCodeData : string;
  status : Status;
  scannedAt : option N;
  deliveredAt : option N;
  createdAt : N
}.

Definition set_paymentStatus (p : PaymentStatus) (o : t) : t :=
  mk (studentId o) (items o) (totalAmount o) (razorpayOrderId o) p
     (qrCodeData o) (status o) (scannedAt o) (deliveredAt o) (createdAt o).

Definition set_qrCodeData (q : string) (o : t) : t :=
  mk (studentId o) (items o) (totalAmount o) (razorpayOrderId o)
     (paymentStatus o) q (status o) (scannedAt o) (deliveredAt o)
     (createdAt o).

Definition set_status (s : Status) (o : t) : t :=
  mk (studentId o) (items o) (totalAmount o) (razorpayOrderId o)
     (paymentStatus o) (qrCodeData o) s (scannedAt o) (deliveredAt o)
     (createdAt o).

Definition set_scannedAt (d : N) (o : t) : t :=
  mk (studentId o) (items o) (totalAmount o) (razorpayOrderId o)
     (paymentStatus o) (qrCodeData o) (status o) (Some d) (deliveredAt o)
     (createdAt o).

Definition set_deliveredAt (d : N) (o : t) : t :=
  mk (studentId o) (items o) (totalAmount o) (razorpayOrderId o)
     (paymentStatus o) (qrCodeData o) (status o) (scannedAt o) (Some d)
     (createdAt o).

(** [buf.toString('hex')]: two lower-case hexadecimal digits per byte. *)
Definition hex_digit (n : N) : string :=
  match n with
  | 0%N => "0" | 1%N => "1" | 2%N => "2" | 3%N => "3"
  | 4%N => "4" | 5%N => "5" | 6%N => "6" | 7%N => "7"
  | 8%N => "8" | 9%N => "9" | 10%N => "a" | 11%N => "b"
  | 12%N => "c" | 13%N => "d" | 14%N => "e" | _ => "f"
  end.

Definition hex_of_byte (b : Byte.byte) : string :=
  let n := Byte.to_N b in
  hex_digit (n / 16) +:+ hex_digit (n mod 16).

Fixpoint toString_hex (buf : list Byte.byte) : string :=
  match buf with
  | [] => ""
  | b :: rest => hex_of_byte b +:+ toString_hex rest
  end.

(** The template string [`ORD-${timestamp}-${randomString}`]. *)
Definition qr_token (timestamp : N) (randomBytes : list Byte.byte)
    : string :=
  "ORD-" +:+ pretty timestamp +:+ "-" +:+ toString_hex randomBytes.

(** [orderSchema.pre('save')]: the QR code is generated when the document
    is saved with status [active] and a falsy (empty) [qrCodeData]. *)
Definition pre_save (timestamp : N) (randomBytes : list Byte.byte)
    (o : t) : t :=
  if bool_decide (status o = active) && bool_decide (qrCodeData o = "")
  then set_qrCodeData (qr_token timestamp randomBytes) o
  else o.

(** The schema validators that can reject a document built by the
    checkout handler: [itemName] is a required string (Mongoose rejects
    the empty string), [quantity] has [min: 1], [totalAmount] has
    [min: 0]. *)
Definition valid_item (it : Item) : bool :=
  negb (bool_decide (itemName it = "")) && (1 <=? quantity it).

Definition validate (o : t) : bool :=
  forallb valid_item (items o) && (0 <=? totalAmount o).

(** [Order.findOne(filter)]: the first document that matches, with its
    id. *)
Fixpoint findOne_from (i : nat) (p : t → bool) (os : list t)
    : option (nat * t) :=
  match os with
  | [] => None
  | o :: rest => if p o then Some (i, o) else findOne_from (S i) p rest
  end.

Definition findOne (p : t → bool) (os : list t) : option (nat * t) :=
  findOne_from 0 p os.

End Order.

(** ** The database, the outside world, the responses *)

Record Db := mkDb {
  menus : gmap N Menu.t;
  orders : list Order.t
}.

(** What one request observes of the outside world: [clock] is the value of
    [Date.now()] / [new Date()] read by the handler, [clock_save] the value
    read inside the model layer (the [createdAt] default, the QR hook),
    [random] the result of [crypto.randomBytes(8)]. *)
Record Env := mkEnv {
  clock : N;
  clock_save : N;
  random : list Byte.byte
}.

(** The state of the Razorpay client at checkout: never initialised
    ([razorpay] is [null]), or initialised, in which case
    [razorpay.orders.create] returns an order id or throws. *)
Inductive Gateway :=
| NoClient
| OrderCreated (id : string)
| CreateThrows.

(** The JSON bodies the five handlers send. *)
Inductive Body :=
| BMessage (message : string)
| BFailure (message : string)
| BError (error : string)
| BCheckout (razorpayOrderId : string) (orderId : nat) (amount : Z)
            (data : Order.t)
| BVerified (message : string) (qrCodeData : string)
| BOrder (message : string) (data : Order.t).

Record Response := Json { code : nat; body : Body }.

(** ** routes/orders.js *)

Record ReqItem := mkReq { req_menuItem : N; req_quantity : Z }.

(** One iteration of the validation loop of the checkout handler: an early
    response, or the updated [totalAmount] and [orderItems].  Prices and
    quantities are integers here; [checkoutA_line] below is the same
    iteration with [<], [*] and [+] as parameters, and the statements on
    the total use that one. *)
Definition checkout_line (ms : gmap N Menu.t)
    (acc : Z * list Order.Item) (item : ReqItem)
    : Response + Z * list Order.Item :=
  match ms !! req_menuItem item with
  | None => inl (Json 404 (BMessage "Menu item not found"))
  | Some menuItem =>
      if Menu.stockCount menuItem <? req_quantity item
      then inl (Json 400
                  (BMessage ("Low stock for " +:+ Menu.itemName menuItem)))
      else inr (fst acc + Menu.price menuItem * req_quantity item,
                snd acc ++ [Order.mkItem (req_menuItem item)
                                         (Menu.itemName menuItem)
                                         (req_quantity item)
                                         (Menu.price menuItem)])
  end.

Fixpoint checkout_loop (ms : gmap N Menu.t)
    (acc : Z * list Order.Item) (items : list ReqItem)
    : Response + Z * list Order.Item :=
  match items with
  | [] => inr acc
  | item :: rest =>
      match checkout_line ms acc item with
      | inl r => inl r
      | inr acc' => checkout_loop ms acc' rest
      end
  end.

(** The payment handle: the gateway's order id, or a mock id built from the
    clock when there is no client or the gateway call throws. *)
Definition payment_handle (e : Env) (gw : Gateway) : string :=
  match gw with
  | OrderCreated id => id
  | NoClient | CreateThrows => "mock_order_" +:+ pretty (clock e)
  end.

(** [POST /api/orders/checkout]. [items] is [None] when the body has no
    [items] field.  When [Order.create] rejects the document the handler's
    [catch] answers 500 with the validation error, whose text is abridged
    here. *)
Definition checkout (e : Env) (user : N) (gw : Gateway)
    (items : option (list ReqItem)) (db : Db) : Response * Db :=
  match items with
  | None | Some [] => (Json 400 (BFailure "Please provide items"), db)
  | Some items =>
      match checkout_loop (menus db) (0, []) items with
      | inl r => (r, db)
      | inr (totalAmount, orderItems) =>
          let razorpayOrderId := payment_handle e gw in
          let razorpayAmount := totalAmount * 100 in
          let doc :=
            Order.mk user orderItems totalAmount razorpayOrderId
                     Order.pending "" Order.pending_payment None None
                     (clock_save e) in
          if Order.validate doc then
            let order := Order.pre_save (clock_save e) (random e) doc in
            (Json 201 (BCheckout razorpayOrderId (length (orders db))
                                 razorpayAmount order),
             mkDb (menus db) (orders db ++ [order]))
          else (Json 500 (BError "Order validation failed"), db)
      end
  end.

(** The stock loops of verify and cancel: one [$inc] per line item, in
    order. *)
Definition adjust_stock (sign : Z) (its : list Order.Item)
    (ms : gmap N Menu.t) : gmap N Menu.t :=
  fold_left
    (λ ms item,
       Menu.findByIdAndUpdate_inc (Order.menuItem item)
                                  (sign * Order.quantity item) ms)
    its ms.

(** [POST /api/orders/verify]. *)
Definition verify (e : Env)
    (razorpay_order_id razorpay_payment_id razorpay_signature : string)
    (db : Db) : Response * Db :=
  let isSignatureValid := true in
  if negb isSignatureValid
  then (Json 400 (BFailure "Payment verification failed"), db)
  else
    match Order.findOne
            (λ o, bool_decide (Order.razorpayOrderId o = razorpay_order_id))
            (orders db) with
    | None => (Json 404 (BMessage "Order not found"), db)
    | Some (id, order) =>
        let ms := adjust_stock (-1) (Order.items order) (menus db) in
        let order := Order.set_paymentStatus Order.completed order in
        let order := Order.set_status Order.active order in
        let order := Order.pre_save (clock_save e) (random e) order in
        (Json 200 (BVerified "Order activated and QR generated"
                             (Order.qrCodeData order)),
         mkDb ms (<[id := order]> (orders db)))
    end.

(** [PATCH /api/orders/scan/:qrData]. *)
Definition scan (e : Env) (qrData : string) (db : Db) : Response * Db :=
  match Order.findOne (λ o, bool_decide (Order.qrCodeData o = qrData))
                      (orders db) with
  | None => (Json 404 (BMessage "Invalid QR code"), db)
  | Some (id, order) =>
      if negb (bool_decide (Order.status order = Order.active))
      then (Json 400 (BMessage
              ("Order is " +:+ Order.Status_to_string (Order.status order))),
            db)
      else
        let order := Order.set_status Order.scanned order in
        let order := Order.set_scannedAt (clock e) order in
        let order := Order.pre_save (clock_save e) (random e) order in
        (Json 200 (BOrder "Order scanned successfully" order),
         mkDb (menus db) (<[id := order]> (orders db)))
  end.

(** [PATCH /api/orders/:id/deliver]. *)
Definition deliver (e : Env) (id : nat) (db : Db) : Response * Db :=
  match orders db !! id with
  | None => (Json 404 (BMessage "Order not found"), db)
  | Some order =>
      if negb (bool_decide (Order.status order = Order.scanned))
      then (Json 400 (BMessage "Must scan before delivery"), db)
      else
        let order := Order.set_status Order.delivered order in
        let order := Order.set_deliveredAt (clock e) order in
        let order := Order.pre_save (clock_save e) (random e) order in
        (Json 200 (BOrder "Delivered" order),
         mkDb (menus db) (<[id := order]> (orders db)))
  end.

(** [PATCH /api/orders/:id/cancel]. *)
Definition cancel (e : Env) (id : nat) (db : Db) : Response * Db :=
  match orders db !! id with
  | None => (Json 404 (BMessage "Order not found"), db)
  | Some order =>
      if bool_decide (Order.status order = Order.delivered)
         || bool_decide (Order.status order = Order.scanned)
      then (Json 400
              (BMessage "Cannot cancel an order in progress or delivered"),
            db)
      else
        let ms := adjust_stock 1 (Order.items order) (menus db) in
        let order := Order.set_status Order.cancelled order in
        let order := Order.pre_save (clock_save e) (random e) order in
        (Json 200 (BOrder "Cancelled" order),
         mkDb ms (<[id := order]> (orders db)))
  end.

(** ** Requests and runs *)

Inductive Request :=
| Checkout (user : N) (gw : Gateway) (items : option (list ReqItem))
| Verify (razorpay_order_id razorpay_payment_id razorpay_signature : string)
| Scan (qrData : string)
| Deliver (id : nat)
| Cancel (id : nat).

Definition handle (e : Env) (r : Request) (db : Db) : Response * Db :=
  match r with
  | Checkout user gw items => checkout e user gw items db
  | Verify oid pid sig => verify e oid pid sig db
  | Scan qrData => scan e qrData db
  | Deliver id => deliver e id db
  | Cancel id => cancel e id db
  end.

(** The database after a sequence of requests, served one after the other. *)
Definition run (rs : list (Env * Request)) (db : Db) : Db :=
  fold_left (λ db er, snd (handle er.1 er.2 db)) rs db.

(** The databases the handlers can produce from a menu and no order. *)
Definition reachable (db : Db) : Prop :=
  ∃ ms rs, db = run rs (mkDb ms []).

(** ** The handlers as a step relation on orders

    Every handler either leaves the collection of orders alone, appends one
    fresh [pending_payment] order, or saves exactly one existing order.
    [order_step] lists what a save can do to that order. *)

Inductive order_step (e : Env) : Request → Order.t → Order.t → Prop :=
| step_verify o pid sig :
    order_step e (Verify (Order.razorpayOrderId o) pid sig) o
      (Order.pre_save (clock_save e) (random e)
         (Order.set_status Order.active
            (Order.set_paymentStatus Order.completed o)))
| step_scan o :
    Order.status o = Order.active →
    order_step e (Scan (Order.qrCodeData o)) o
      (Order.pre_save (clock_save e) (random e)
         (Order.set_scannedAt (clock e)
            (Order.set_status Order.scanned o)))
| step_deliver id o :
    Order.status o = Order.scanned →
    order_step e (Deliver id) o
      (Order.pre_save (clock_save e) (random e)
         (Order.set_deliveredAt (clock e)
            (Order.set_status Order.delivered o)))
| step_cancel id o :
    Order.status o ≠ Order.delivered →
    Order.status o ≠ Order.scanned →
    order_step e (Cancel id) o
      (Order.pre_save (clock_save e) (random e)
         (Order.set_status Order.cancelled o)).

Inductive orders_step (e : Env)
    : Request → list Order.t → list Order.t → Prop :=
| orders_same r os : orders_step e r os os
| orders_create user gw items os o :
    Order.status o = Order.pending_payment →
    Order.qrCodeData o = "" →
    orders_step e (Checkout user gw items) os (os ++ [o])
| orders_save r os id o o' :
    os !! id = Some o →
    order_step e r o o' →
    orders_step e r os (<[id := o']> os).

(** The fields no handler writes after creation. *)
Definition same_core (o o' : Order.t) : Prop :=
  Order.studentId o' = Order.studentId o
  ∧ Order.items o' = Order.items o
  ∧ Order.totalAmount o' = Order.totalAmount o
  ∧ Order.razorpayOrderId o' = Order.razorpayOrderId o
  ∧ Order.createdAt o' = Order.createdAt o.

(** A line item is the snapshot of a requested line: the requested id and
    quantity, the name and the price the catalog has at that time. *)
Definition snapshot (ms : gmap N Menu.t) (r : ReqItem) (it : Order.Item)
    : Prop :=
  Order.menuItem it = req_menuItem r
  ∧ Order.quantity it = req_quantity r
  ∧ ∃ m, ms !! req_menuItem r = Some m
         ∧ Order.itemName it = Menu.itemName m
         ∧ Order.price it = Menu.price m.

(** The requested line is in the catalog and within stock. *)
Definition within_stock (ms : gmap N Menu.t) (r : ReqItem) : Prop :=
  ∃ m, ms !! req_menuItem r = Some m ∧ req_quantity r ≤ Menu.stockCount m.

(** The requested quantity exceeds the current stock of the item. *)
Definition over_stock (ms : gmap N Menu.t) (r : ReqItem) : Prop :=
  ∃ m, ms !! req_menuItem r = Some m ∧ Menu.stockCount m < req_quantity r.

(** The error kinds of the specification, as the responses that carry
    them. *)
Definition NotFound (r : Response) : Prop := code r = 404%nat.

Definition ItemNotFound (ms : gmap N Menu.t) (its : list ReqItem)
    (r : Response) : Prop :=
  ∃ x, x ∈ its ∧ ms !! req_menuItem x = None
       ∧ r = Json 404 (BMessage "Menu item not found").

Definition InsufficientStock (ms : gmap N Menu.t) (its : list ReqItem)
    (r : Response) : Prop :=
  ∃ x m, x ∈ its ∧ ms !! req_menuItem x = Some m
         ∧ Menu.stockCount m < req_quantity x
         ∧ r = Json 400 (BMessage ("Low stock for " +:+ Menu.itemName m)).

Definition InvalidState (s : Order.Status) (r : Response) : Prop :=
  r = Json 400 (BMessage ("Order is " +:+ Order.Status_to_string s)).

Definition PaymentVerificationFailed (r : Response) : Prop :=
  r = Json 400 (BFailure "Payment verification failed").



(** Scan and deliver may touch the status and their own timestamp only. *)
Definition same_but_status_scannedAt (o o' : Order.t) : Prop :=
  same_core o o'
  ∧ Order.paymentStatus o' = Order.paymentStatus o
  ∧ Order.qrCodeData o' = Order.qrCodeData o
  ∧ Order.deliveredAt o' = Order.deliveredAt o.

Definition same_but_status_deliveredAt (o o' : Order.t) : Prop :=
  same_core o o'
  ∧ Order.paymentStatus o' = Order.paymentStatus o
  ∧ Order.qrCodeData o' = Order.qrCodeData o
  ∧ Order.scannedAt o' = Order.scannedAt o.

(** ** Scenario data

    The catalog of the scenario of the specification: item A (price 10,
    stock 5) and item B (price 20, stock 1), both stored by [Menu.create],
    that is through the [save] hooks. *)

Definition itemA : Menu.t :=
  Menu.pre_save 0 (Menu.mk "ItemA" 10 5 "" Menu.lunch true "" 0 0).

Definition itemB : Menu.t :=
  Menu.pre_save 0 (Menu.mk "ItemB" 20 1 "" Menu.snacks true "" 0 0).

Definition catalog : gmap N Menu.t := <[1%N := itemA]> (<[2%N := itemB]> ∅).

Definition db0 : Db := mkDb catalog [].

Definition env1 : Env :=
  mkEnv 1700000000000 1700000000001
        [x00; x1f; xa0; xff; x01; x02; x03; x04].

Definition env2 : Env :=
  mkEnv 1700000005000 1700000005001
        [x9c; x41; x07; xee; x10; x2b; x5d; x66].

(** Two units of A and one of B. *)
Definition cart : list ReqItem := [mkReq 1 2; mkReq 2 1].

(** Two users each order one unit of A, through the gateway. *)
Definition two_checkouts : list (Env * Request) :=
  [(env1, Checkout 7 (OrderCreated "order_a") (Some [mkReq 1 1]));
   (env1, Checkout 8 (OrderCreated "order_b") (Some [mkReq 1 1]))].


(** The scenario of the specification: user 7 checks out [cart] with no
    gateway client (so the handle is a mock id), the payment is verified,
    the token is scanned and the order is delivered. *)
Definition checkout_cart : list (Env * Request) :=
  [(env1, Checkout 7 NoClient (Some cart))].

Definition cart_handle : string := "mock_order_1700000000000".

Definition cart_token : string := "ORD-1700000000001-001fa0ff01020304".

Definition verify_cart : Env * Request :=
  (env1, Verify cart_handle "pay_1" "sig_1").

Definition until_cancelled : list (Env * Request) :=
  checkout_cart ++ [(env1, Cancel 0)].

Definition until_scanned : list (Env * Request) :=
  checkout_cart ++ [verify_cart; (env1, Scan cart_token)].

Definition until_delivered : list (Env * Request) :=
  until_scanned ++ [(env1, Deliver 0)].

(** The verify request sent once more, later on. *)
Definition verify_again : Env * Request :=
  (env2, Verify cart_handle "pay_1" "sig_1").

(** Two users each order the last unit of B; both payments are
    verified. *)
Definition oversell : list (Env * Request) :=
  [(env1, Checkout 7 (OrderCreated "order_a") (Some [mkReq 2 1]));
   (env1, Checkout 8 (OrderCreated "order_b") (Some [mkReq 2 1]));
   (env1, Verify "order_a" "pay_a" "sig_a");
   (env2, Verify "order_b" "pay_b" "sig_b")].

(** One user orders the last unit of B and pays. *)
Definition sell_last_unit : list (Env * Request) :=
  [(env1, Checkout 7 (OrderCreated "order_a") (Some [mkReq 2 1]));
   (env1, Verify "order_a" "pay_a" "sig_a")].

(** The transitions of the state machine of the specification, and
    staying put. *)
Definition allowed (s s' : Order.Status) : Prop :=
  s' = s
  ∨ (s = Order.pending_payment ∧ s' = Order.active)
  ∨ (s = Order.active ∧ s' = Order.scanned)
  ∨ (s = Order.scanned ∧ s' = Order.delivered)
  ∨ ((s = Order.pending_payment ∨ s = Order.active)
     ∧ s' = Order.cancelled).

Definition is_Verify (r : Request) : bool :=
  match r with Verify _ _ _ => true | _ => false end.

(** The filter [{ qrCodeData: qrData }]. *)
Definition has_token (qrData : string) (o : Order.t) : bool :=
  bool_decide (Order.qrCodeData o = qrData).

(** ** Quantities used by the stock properties *)


(** Verify writes the payment status, the status and (through the save
    hook) the QR token of an order, and nothing else. *)
Definition same_but_payment (o o' : Order.t) : Prop :=
  same_core o o'
  ∧ Order.scannedAt o' = Order.scannedAt o
  ∧ Order.deliveredAt o' = Order.deliveredAt o.

(** Payment and lifecycle agree: an order that is [active], [scanned] or
    [delivered] has a completed payment, and no order has a failed one. *)
Definition payment_inv (o : Order.t) : Prop :=
  (Order.status o = Order.active ∨ Order.status o = Order.scanned
   ∨ Order.status o = Order.delivered →
   Order.paymentStatus o = Order.completed)
  ∧ Order.paymentStatus o ≠ Order.failed.

(** The timestamps follow the lifecycle: none on a pending order, a scan
    date on a scanned or delivered order, a delivery date on a delivered
    order, and no delivery date without a scan date. *)
Definition timestamp_inv (o : Order.t) : Prop :=
  (Order.status o = Order.pending_payment →
   Order.scannedAt o = None ∧ Order.deliveredAt o = None)
  ∧ (Order.status o = Order.scanned ∨ Order.status o = Order.delivered →
     is_Some (Order.scannedAt o))
  ∧ (Order.status o = Order.delivered → is_Some (Order.deliveredAt o))
  ∧ (is_Some (Order.deliveredAt o) → is_Some (Order.scannedAt o)).

(** The filter [{ razorpayOrderId: id }]. *)
Definition has_handle (id : string) (o : Order.t) : bool :=
  bool_decide (Order.razorpayOrderId o = id).

(** The order that the checkout of the scenario stores. *)
Definition cart_order : Order.t :=
  Order.mk 7 [Order.mkItem 1 "ItemA" 2 10; Order.mkItem 2 "ItemB" 1 20]
           40 cart_handle Order.pending "" Order.pending_payment
           None None 1700000000001.

(** Two users check out one unit of A in the same millisecond, with no
    gateway client: both orders get the same mock handle. *)
Definition same_millisecond : list (Env * Request) :=
  [(env1, Checkout 7 NoClient (Some [mkReq 1 1]));
   (env1, Checkout 8 NoClient (Some [mkReq 1 1]))].

(** Both customers then pay, and the second order is cancelled and paid
    once more. *)
Definition both_pay : list (Env * Request) :=
  [(env2, Verify cart_handle "pay_a" "sig_a");
   (env2, Verify cart_handle "pay_b" "sig_b");
   (env2, Cancel 1);
   (env2, Verify cart_handle "pay_b" "sig_b")].

(** Two stored orders that differ in their payment handle at most. *)
Definition same_but_handle (o o' : Order.t) : Prop :=
  Order.studentId o' = Order.studentId o
  ∧ Order.items o' = Order.items o
  ∧ Order.totalAmount o' = Order.totalAmount o
  ∧ Order.paymentStatus o' = Order.paymentStatus o
  ∧ Order.qrCodeData o' = Order.qrCodeData o
  ∧ Order.status o' = Order.status o
  ∧ Order.scannedAt o' = Order.scannedAt o
  ∧ Order.deliveredAt o' = Order.deliveredAt o
  ∧ Order.createdAt o' = Order.createdAt o.

(** ** routes/orders.js: the read routes

    [GET /api/orders] and [GET /api/orders/:id].  The caller is the user
    that [protect] has put in [req.user].  A document is listed with its
    [_id], its position in the collection.  [populate] replaces
    references by the documents they name and does not change which orders
    are returned; the bodies below carry the stored documents. *)

Record User := mkUser { user_id : N; role : string }.

(** [req.user.role === 'student']. *)
Definition is_student (u : User) : bool := bool_decide (role u = "student").

Inductive ReadBody :=
| RFailure (message : string)
| RError (error : string)
| ROrders (count : nat) (data : list (nat * Order.t))
| ROrderData (data : Order.t).

Record ReadResponse := ReadJson { read_code : nat; read_body : ReadBody }.

(** The filter of [GET /api/orders]: [{}] for every role but [student],
    [{ studentId: req.user._id }] for a student. *)
Definition visible_to (u : User) (io : nat * Order.t) : Prop :=
  is_student u = true → Order.studentId io.2 = user_id u.

#[global] Instance visible_to_dec u io : Decision (visible_to u io).
Proof. unfold visible_to. apply _. Defined.

(** The order of [sort({ createdAt: -1 })]: newest first. *)
Definition newer_first (a b : nat * Order.t) : Prop :=
  (Order.createdAt b.2 ≤ Order.createdAt a.2)%N.

#[global] Instance newer_first_dec a b : Decision (newer_first a b).
Proof. unfold newer_first. apply _. Defined.

(** [GET /api/orders].  The sort is a merge sort; the order in which the
    database returns documents with equal dates is not fixed by the
    source, and nothing below depends on it. *)
Definition get_orders (u : User) (db : Db) : ReadResponse :=
  let orders :=
    merge_sort newer_first
               (filter (visible_to u) (imap pair (orders db))) in
  ReadJson 200 (ROrders (length orders) orders).

(** [GET /api/orders/:id].  [accounts] is the set of ids of the user
    collection: [populate('studentId')] leaves [null] when the owner's
    account is gone, and the ownership test of a student then throws on
    [order.studentId._id], which the [catch] answers with 500 (the text of
    the error is abridged). *)
Definition get_order (accounts : gset N) (u : User) (id : nat) (db : Db)
    : ReadResponse :=
  match orders db !! id with
  | None => ReadJson 404 (RFailure "Order not found")
  | Some order =>
      if is_student u then
        if bool_decide (Order.studentId order ∈ accounts) then
          if negb (bool_decide (Order.studentId order = user_id u))
          then ReadJson 403 (RFailure "Not authorized")
          else ReadJson 200 (ROrderData order)
        else ReadJson 500 (RError "Cannot read properties of null")
      else ReadJson 200 (ROrderData order)
  end.

(** ** routes/menu.js

    The routes that list, read, add, restock and delete menu items.
    [String.prototype.toLowerCase] and the [trim] setter of the schema are
    taken as parameters.  [PUT /api/menu/:id] passes the whole request body
    to the database as an update document and is not modelled. *)

Record JsString := mkJs {
  toLowerCase : string → string;
  trim : string → string
}.

(** The enum of [menuSchema.category], as stored. *)
Definition Category_to_string (c : Menu.Category) : string :=
  match c with
  | Menu.breakfast => "breakfast"
  | Menu.lunch => "lunch"
  | Menu.snacks => "snacks"
  | Menu.beverages => "beverages"
  | Menu.dinner => "dinner"
  | Menu.desserts => "desserts"
  end.

Definition Category_of_string (s : string) : option Menu.Category :=
  if bool_decide (s = "breakfast") then Some Menu.breakfast
  else if bool_decide (s = "lunch") then Some Menu.lunch
  else if bool_decide (s = "snacks") then Some Menu.snacks
  else if bool_decide (s = "beverages") then Some Menu.beverages
  else if bool_decide (s = "dinner") then Some Menu.dinner
  else if bool_decide (s = "desserts") then Some Menu.desserts
  else None.

Inductive MenuBody :=
| MFailure (message : string)
| MError (message : string) (error : string)
| MItem (message : string) (data : N * Menu.t)
| MData (data : N * Menu.t)
| MList (count : nat) (data : list (N * Menu.t))
| MDone (message : string).

Record MenuResponse := MenuJson { menu_code : nat; menu_body : MenuBody }.

(** The query of [GET /api/menu]: a filter on the category when the
    [category] parameter is a non-empty string, and on availability and
    stock when [available] is the string ["true"]. *)
Definition menu_filter (js : JsString) (category available : option string)
    (im : N * Menu.t) : Prop :=
  (∀ c, category = Some c → c ≠ "" →
        Category_to_string (Menu.category im.2) = toLowerCase js c)
  ∧ (available = Some "true" →
     Menu.isAvailable im.2 = true ∧ 0 < Menu.stockCount im.2).

#[global] Instance menu_filter_dec js category available im :
  Decision (menu_filter js category available im).
Proof.
  unfold menu_filter. apply and_dec; [|apply _].
  destruct category as [c|].
  - destruct (decide (c = "")) as [->|Hc].
    + left. by intros ? [= <-].
    + destruct (decide (Category_to_string (Menu.category im.2)
                        = toLowerCase js c)) as [Heq|Hne].
      * left. by intros ? [= <-].
      * right. intros H. by apply Hne, H.
  - left. done.
Defined.

(** The order of [sort({ category: 1, itemName: 1 })], strings being
    compared character by character. *)
Definition menu_order (a b : N * Menu.t) : Prop :=
  let ca := Category_to_string (Menu.category a.2) in
  let cb := Category_to_string (Menu.category b.2) in
  String.ltb ca cb = true
  ∨ (ca = cb ∧ String.leb (Menu.itemName a.2) (Menu.itemName b.2) = true).

#[global] Instance menu_order_dec a b : Decision (menu_order a b).
Proof. unfold menu_order. apply _. Defined.

(** [GET /api/menu]. *)
Definition get_menu (js : JsString) (category available : option string)
    (ms : gmap N Menu.t) : MenuResponse :=
  let menuItems :=
    merge_sort menu_order
               (filter (menu_filter js category available)
                       (map_to_list ms)) in
  MenuJson 200 (MList (length menuItems) menuItems).

(** [GET /api/menu/:id]. *)
Definition get_menu_item (id : N) (ms : gmap N Menu.t) : MenuResponse :=
  match ms !! id with
  | None => MenuJson 404 (MFailure "Menu item not found")
  | Some menuItem => MenuJson 200 (MData (id, menuItem))
  end.

(** The body of [POST /api/menu/add]; [None] is a field that is absent. *)
Record AddBody := mkAdd {
  add_itemName : option string;
  add_price : option Z;
  add_stockCount : option Z;
  add_imageURL : option string;
  add_category : option string;
  add_description : option string
}.

(** What [Menu.create] reads from the outside world: the clock for the
    date defaults, the clock for the [updatedAt] hook, the fresh [_id]. *)
Record MenuEnv := mkMenuEnv {
  menu_clock : N;
  menu_clock_save : N;
  menu_new_id : N
}.

(** [Menu.create]: setters ([trim] on the name, [lowercase] on the
    category), defaults, validators (required name, [min: 0] on price and
    stock, the category enum), the [save] hooks, and the insertion, which
    the unique index on [_id] refuses when the id is taken.  [None] is a
    rejected document. *)
Definition Menu_create (js : JsString) (e : MenuEnv)
    (itemName : string) (price stockCount : Z) (imageURL : option string)
    (category : string) (description : option string)
    (ms : gmap N Menu.t) : option (Menu.t * gmap N Menu.t) :=
  let itemName := trim js itemName in
  match Category_of_string (toLowerCase js category) with
  | None => None
  | Some category =>
      if bool_decide (itemName = "") || (price <? 0) || (stockCount <? 0)
      then None
      else
        let doc :=
          Menu.mk itemName price stockCount
                  (default
                     "https://via.placeholder.com/300x200?text=Food+Item"
                     imageURL)
                  category true (default "" description)
                  (menu_clock e) (menu_clock e) in
        let doc := Menu.pre_save (menu_clock_save e) doc in
        match ms !! menu_new_id e with
        | Some _ => None
        | None => Some (doc, <[menu_new_id e := doc]> ms)
        end
  end.

(** [POST /api/menu/add].  The guard rejects a missing or empty name, a
    missing or zero price, a missing stock count and a missing or empty
    category; the category goes through [toLowerCase] before
    [Menu.create].  The fields of the body are taken at the types of the
    schema, numbers for the price and the stock: a price sent as the
    string ["0"] passes the guard of the source and is stored as 0, which
    is outside this model, and nothing below relies on the guard on the
    price. *)
Definition add_menu_item (js : JsString) (e : MenuEnv) (b : AddBody)
    (ms : gmap N Menu.t) : MenuResponse * gmap N Menu.t :=
  match add_itemName b, add_price b, add_stockCount b, add_category b with
  | Some itemName, Some price, Some stockCount, Some category =>
      if bool_decide (itemName = "") || bool_decide (price = 0)
         || bool_decide (category = "")
      then (MenuJson 400
              (MFailure
                 "Please provide itemName, price, stockCount, and category"),
            ms)
      else
        match Menu_create js e itemName price stockCount (add_imageURL b)
                          (toLowerCase js category) (add_description b) ms
        with
        | Some (menuItem, ms') =>
            (MenuJson 201 (MItem "Menu item added successfully"
                                 (menu_new_id e, menuItem)),
             ms')
        | None =>
            (MenuJson 500 (MError "Error adding menu item"
                                  "Menu validation failed"),
             ms)
        end
  | _, _, _, _ =>
      (MenuJson 400
         (MFailure
            "Please provide itemName, price, stockCount, and category"),
       ms)
  end.

(** The update document [{ stockCount }]. *)
Definition set_stockCount (n : Z) (m : Menu.t) : Menu.t :=
  Menu.mk (Menu.itemName m) (Menu.price m) n (Menu.imageURL m)
          (Menu.category m) (Menu.isAvailable m) (Menu.description m)
          (Menu.createdAt m) (Menu.updatedAt m).

(** [PATCH /api/menu/:id/stock].  The update runs the validators
    ([min: 0], which the guard has already checked) and no [save] hook. *)
Definition update_stock (id : N) (stockCount : option Z)
    (ms : gmap N Menu.t) : MenuResponse * gmap N Menu.t :=
  match stockCount with
  | None =>
      (MenuJson 400 (MFailure "Please provide a valid stock count"), ms)
  | Some n =>
      if n <? 0
      then (MenuJson 400 (MFailure "Please provide a valid stock count"),
            ms)
      else
        match ms !! id with
        | None => (MenuJson 404 (MFailure "Menu item not found"), ms)
        | Some m =>
            let menuItem := set_stockCount n m in
            (MenuJson 200 (MItem "Stock updated successfully"
                                 (id, menuItem)),
             <[id := menuItem]> ms)
        end
  end.

(** [DELETE /api/menu/:id]. *)
Definition delete_menu_item (id : N) (ms : gmap N Menu.t)
    : MenuResponse * gmap N Menu.t :=
  match ms !! id with
  | None => (MenuJson 404 (MFailure "Menu item not found"), ms)
  | Some _ =>
      (MenuJson 200 (MDone "Menu item deleted successfully"), delete id ms)
  end.

(** The menu routes that write, as requests. *)
Inductive MenuRequest :=
| AddItem (e : MenuEnv) (b : AddBody)
| UpdateStock (id : N) (stockCount : option Z)
| DeleteItem (id : N).

Definition handle_menu (js : JsString) (r : MenuRequest)
    (ms : gmap N Menu.t) : MenuResponse * gmap N Menu.t :=
  match r with
  | AddItem e b => add_menu_item js e b ms
  | UpdateStock id stockCount => update_stock id stockCount ms
  | DeleteItem id => delete_menu_item id ms
  end.

(** What the menu schema asks of a stored item. *)
Definition menu_item_ok (m : Menu.t) : Prop :=
  Menu.itemName m ≠ "" ∧ 0 ≤ Menu.price m ∧ 0 ≤ Menu.stockCount m.

(** Scenario data for the menu routes: lower-casing and trimming that do
    nothing (the strings below are lower-case and have no blanks at their
    ends), and a body for a new item. *)
Definition js_id : JsString := mkJs id id.

Definition menu_env : MenuEnv := mkMenuEnv 1700000010000 1700000010002 3.

Definition tea_body : AddBody :=
  mkAdd (Some "Tea") (Some 8) (Some 0) None (Some "beverages") None.

(** ** The order handlers over the arithmetic of the platform

    A JavaScript [Number] is an IEEE-754 double, and a [$inc] is an
    addition made by the database.  The definitions above compute on
    integers, which is what the properties of the lifecycle, of the token
    and of the frames need; the properties that depend on the arithmetic
    are stated on the definitions below, which are the same handlers over
    an arithmetic given as a parameter: the literals [0], [1] and [100] of
    the source, [+], [*], unary [-], [<], the [>=] of the [min]
    validators, and the addition of [$inc].  [binary64] is the instance of
    the doubles. *)

Record Arith := mkArith {
  num : Type;
  js_0 : num;
  js_1 : num;
  js_100 : num;
  js_add : num → num → num;
  js_mul : num → num → num;
  js_neg : num → num;
  js_lt : num → num → bool;
  js_ge : num → num → bool;
  db_inc : num → num → num
}.

Module MenuA.

Record t {A : Arith} := mk {
  itemName : string;
  price : num A;
  stockCount : num A;
  imageURL : string;
  category : Menu.Category;
  isAvailable : bool;
  description : string;
  createdAt : N;
  updatedAt : N
}.
Arguments t : clear implicits.
Arguments mk {A}.

(** The update document [{ $inc: { stockCount: delta } }]. *)
Definition inc_stockCount {A : Arith} (delta : num A) (m : t A) : t A :=
  mk (itemName m) (price m) (db_inc A (stockCount m) delta) (imageURL m)
     (category m) (isAvailable m) (description m) (createdAt m)
     (updatedAt m).

(** [Menu.findByIdAndUpdate(id, { $inc: { stockCount: delta } })]. *)
Definition findByIdAndUpdate_inc {A : Arith} (id : N) (delta : num A)
    (menus : gmap N (t A)) : gmap N (t A) :=
  alter (inc_stockCount delta) id menus.

End MenuA.

Module OrderA.

Record Item {A : Arith} := mkItem {
  menuItem : N;
  itemName : string;
  quantity : num A;
  price : num A
}.
Arguments Item : clear implicits.
Arguments mkItem {A}.

Record t {A : Arith} := mk {
  studentId : N;
  items : list (Item A);
  totalAmount : num A;
  razorpayOrderId : string;
  paymentStatus : Order.PaymentStatus;
  qrCodeData : string;
  status : Order.Status;
  scannedAt : option N;
  deliveredAt : option N;
  createdAt : N
}.
Arguments t : clear implicits.
Arguments mk {A}.

Definition set_paymentStatus {A : Arith} (p : Order.PaymentStatus)
    (o : t A) : t A :=
  mk (studentId o) (items o) (totalAmount o) (razorpayOrderId o) p
     (qrCodeData o) (status o) (scannedAt o) (deliveredAt o) (createdAt o).

Definition set_qrCodeData {A : Arith} (q : string) (o : t A) : t A :=
  mk (studentId o) (items o) (totalAmount o) (razorpayOrderId o)
     (paymentStatus o) q (status o) (scannedAt o) (deliveredAt o)
     (createdAt o).

Definition set_status {A : Arith} (s : Order.Status) (o : t A) : t A :=
  mk (studentId o) (items o) (totalAmount o) (razorpayOrderId o)
     (paymentStatus o) (qrCodeData o) s (scannedAt o) (deliveredAt o)
     (createdAt o).

Definition set_scannedAt {A : Arith} (d : N) (o : t A) : t A :=
  mk (studentId o) (items o) (totalAmount o) (razorpayOrderId o)
     (paymentStatus o) (qrCodeData o) (status o) (Some d) (deliveredAt o)
     (createdAt o).

Definition set_deliveredAt {A : Arith} (d : N) (o : t A) : t A :=
  mk (studentId o) (items o) (totalAmount o) (razorpayOrderId o)
     (paymentStatus o) (qrCodeData o) (status o) (scannedAt o) (Some d)
     (createdAt o).

(** [orderSchema.pre('save')]. *)
Definition pre_save {A : Arith} (timestamp : N)
    (randomBytes : list Byte.byte) (o : t A) : t A :=
  if bool_decide (status o = Order.active)
     && bool_decide (qrCodeData o = "")
  then set_qrCodeData (Order.qr_token timestamp randomBytes) o
  else o.

(** The validators: a required [itemName], [quantity >= 1],
    [totalAmount >= 0]. *)
Definition valid_item {A : Arith} (it : Item A) : bool :=
  negb (bool_decide (itemName it = "")) && js_ge A (quantity it) (js_1 A).

Definition validate {A : Arith} (o : t A) : bool :=
  forallb valid_item (items o) && js_ge A (totalAmount o) (js_0 A).

Fixpoint findOne_from {A : Arith} (i : nat) (p : t A → bool)
    (os : list (t A)) : option (nat * t A) :=
  match os with
  | [] => None
  | o :: rest => if p o then Some (i, o) else findOne_from (S i) p rest
  end.

Definition findOne {A : Arith} (p : t A → bool) (os : list (t A))
    : option (nat * t A) :=
  findOne_from 0 p os.

End OrderA.

Record DbA {A : Arith} := mkDbA {
  menusA : gmap N (MenuA.t A);
  ordersA : list (OrderA.t A)
}.
Arguments DbA : clear implicits.
Arguments mkDbA {A}.

Inductive BodyA {A : Arith} :=
| AMessage (message : string)
| AFailure (message : string)
| AError (error : string)
| ACheckout (razorpayOrderId : string) (orderId : nat) (amount : num A)
            (data : OrderA.t A)
| AVerified (message : string) (qrCodeData : string)
| AOrder (message : string) (data : OrderA.t A).
Arguments BodyA : clear implicits.
Arguments AMessage {A}.
Arguments AFailure {A}.
Arguments AError {A}.
Arguments ACheckout {A}.
Arguments AVerified {A}.
Arguments AOrder {A}.

Record ResponseA {A : Arith} := JsonA { codeA : nat; bodyA : BodyA A }.
Arguments ResponseA : clear implicits.
Arguments JsonA {A}.

Record ReqItemA {A : Arith} := mkReqA {
  reqA_menuItem : N;
  reqA_quantity : num A
}.
Arguments ReqItemA : clear implicits.
Arguments mkReqA {A}.

(** One iteration of the validation loop of the checkout handler. *)
Definition checkoutA_line {A : Arith} (ms : gmap N (MenuA.t A))
    (acc : num A * list (OrderA.Item A)) (item : ReqItemA A)
    : ResponseA A + num A * list (OrderA.Item A) :=
  match ms !! reqA_menuItem item with
  | None => inl (JsonA 404 (AMessage "Menu item not found"))
  | Some menuItem =>
      if js_lt A (MenuA.stockCount menuItem) (reqA_quantity item)
      then inl (JsonA 400
                  (AMessage ("Low stock for " +:+ MenuA.itemName menuItem)))
      else inr (js_add A acc.1
                  (js_mul A (MenuA.price menuItem) (reqA_quantity item)),
                acc.2 ++ [OrderA.mkItem (reqA_menuItem item)
                                        (MenuA.itemName menuItem)
                                        (reqA_quantity item)
                                        (MenuA.price menuItem)])
  end.

Fixpoint checkoutA_loop {A : Arith} (ms : gmap N (MenuA.t A))
    (acc : num A * list (OrderA.Item A)) (items : list (ReqItemA A))
    : ResponseA A + num A * list (OrderA.Item A) :=
  match items with
  | [] => inr acc
  | item :: rest =>
      match checkoutA_line ms acc item with
      | inl r => inl r
      | inr acc' => checkoutA_loop ms acc' rest
      end
  end.

(** [POST /api/orders/checkout]. *)
Definition checkoutA {A : Arith} (e : Env) (user : N) (gw : Gateway)
    (items : option (list (ReqItemA A))) (db : DbA A)
    : ResponseA A * DbA A :=
  match items with
  | None | Some [] => (JsonA 400 (AFailure "Please provide items"), db)
  | Some items =>
      match checkoutA_loop (menusA db) (js_0 A, []) items with
      | inl r => (r, db)
      | inr (totalAmount, orderItems) =>
          let razorpayOrderId := payment_handle e gw in
          let razorpayAmount := js_mul A totalAmount (js_100 A) in
          let doc :=
            OrderA.mk user orderItems totalAmount razorpayOrderId
                      Order.pending "" Order.pending_payment None None
                      (clock_save e) in
          if OrderA.validate doc then
            let order := OrderA.pre_save (clock_save e) (random e) doc in
            (JsonA 201 (ACheckout razorpayOrderId (length (ordersA db))
                                  razorpayAmount order),
             mkDbA (menusA db) (ordersA db ++ [order]))
          else (JsonA 500 (AError "Order validation failed"), db)
      end
  end.

(** The stock loops of verify and cancel: one [$inc] per line item, in
    order, of [delta item]. *)
Definition adjust_stockA {A : Arith} (delta : OrderA.Item A → num A)
    (its : list (OrderA.Item A)) (ms : gmap N (MenuA.t A))
    : gmap N (MenuA.t A) :=
  fold_left
    (λ ms item,
       MenuA.findByIdAndUpdate_inc (OrderA.menuItem item) (delta item) ms)
    its ms.

(** [POST /api/orders/verify]. *)
Definition verifyA {A : Arith} (e : Env)
    (razorpay_order_id razorpay_payment_id razorpay_signature : string)
    (db : DbA A) : ResponseA A * DbA A :=
  let isSignatureValid := true in
  if negb isSignatureValid
  then (JsonA 400 (AFailure "Payment verification failed"), db)
  else
    match OrderA.findOne
            (λ o, bool_decide (OrderA.razorpayOrderId o = razorpay_order_id))
            (ordersA db) with
    | None => (JsonA 404 (AMessage "Order not found"), db)
    | Some (id, order) =>
        let ms :=
          adjust_stockA (λ item, js_neg A (OrderA.quantity item))
                        (OrderA.items order) (menusA db) in
        let order := OrderA.set_paymentStatus Order.completed order in
        let order := OrderA.set_status Order.active order in
        let order := OrderA.pre_save (clock_save e) (random e) order in
        (JsonA 200 (AVerified "Order activated and QR generated"
                              (OrderA.qrCodeData order)),
         mkDbA ms (<[id := order]> (ordersA db)))
    end.

(** [PATCH /api/orders/scan/:qrData]. *)
Definition scanA {A : Arith} (e : Env) (qrData : string) (db : DbA A)
    : ResponseA A * DbA A :=
  match OrderA.findOne (λ o, bool_decide (OrderA.qrCodeData o = qrData))
                       (ordersA db) with
  | None => (JsonA 404 (AMessage "Invalid QR code"), db)
  | Some (id, order) =>
      if negb (bool_decide (OrderA.status order = Order.active))
      then (JsonA 400 (AMessage
              ("Order is "
               +:+ Order.Status_to_string (OrderA.status order))),
            db)
      else
        let order := OrderA.set_status Order.scanned order in
        let order := OrderA.set_scannedAt (clock e) order in
        let order := OrderA.pre_save (clock_save e) (random e) order in
        (JsonA 200 (AOrder "Order scanned successfully" order),
         mkDbA (menusA db) (<[id := order]> (ordersA db)))
  end.

(** [PATCH /api/orders/:id/deliver]. *)
Definition deliverA {A : Arith} (e : Env) (id : nat) (db : DbA A)
    : ResponseA A * DbA A :=
  match ordersA db !! id with
  | None => (JsonA 404 (AMessage "Order not found"), db)
  | Some order =>
      if negb (bool_decide (OrderA.status order = Order.scanned))
      then (JsonA 400 (AMessage "Must scan before delivery"), db)
      else
        let order := OrderA.set_status Order.delivered order in
        let order := OrderA.set_deliveredAt (clock e) order in
        let order := OrderA.pre_save (clock_save e) (random e) order in
        (JsonA 200 (AOrder "Delivered" order),
         mkDbA (menusA db) (<[id := order]> (ordersA db)))
  end.

(** [PATCH /api/orders/:id/cancel]. *)
Definition cancelA {A : Arith} (e : Env) (id : nat) (db : DbA A)
    : ResponseA A * DbA A :=
  match ordersA db !! id with
  | None => (JsonA 404 (AMessage "Order not found"), db)
  | Some order =>
      if bool_decide (OrderA.status order = Order.delivered)
         || bool_decide (OrderA.status order = Order.scanned)
      then (JsonA 400
              (AMessage "Cannot cancel an order in progress or delivered"),
            db)
      else
        let ms :=
          adjust_stockA (λ item, OrderA.quantity item)
                        (OrderA.items order) (menusA db) in
        let order := OrderA.set_status Order.cancelled order in
        let order := OrderA.pre_save (clock_save e) (random e) order in
        (JsonA 200 (AOrder "Cancelled" order),
         mkDbA ms (<[id := order]> (ordersA db)))
  end.

Inductive RequestA {A : Arith} :=
| CheckoutA (user : N) (gw : Gateway) (items : option (list (ReqItemA A)))
| VerifyA (razorpay_order_id razorpay_payment_id razorpay_signature : string)
| ScanA (qrData : string)
| DeliverA (id : nat)
| CancelA (id : nat).
Arguments RequestA : clear implicits.
Arguments CheckoutA {A}.
Arguments VerifyA {A}.
Arguments ScanA {A}.
Arguments DeliverA {A}.
Arguments CancelA {A}.

Definition handleA {A : Arith} (e : Env) (r : RequestA A) (db : DbA A)
    : ResponseA A * DbA A :=
  match r with
  | CheckoutA user gw items => checkoutA e user gw items db
  | VerifyA oid pid sig => verifyA e oid pid sig db
  | ScanA qrData => scanA e qrData db
  | DeliverA id => deliverA e id db
  | CancelA id => cancelA e id db
  end.

Definition runA {A : Arith} (rs : list (Env * RequestA A)) (db : DbA A)
    : DbA A :=
  fold_left (λ db er, (handleA er.1 er.2 db).2) rs db.

(** The total as the handler accumulates it: from the literal [0], line
    after line, [total + price * quantity]. *)
Definition sum_linesA {A : Arith} (its : list (OrderA.Item A)) : num A :=
  fold_left
    (λ acc it, js_add A acc (js_mul A (OrderA.price it) (OrderA.quantity it)))
    its (js_0 A).

(** The same accumulation read off the request and the catalog. *)
Definition request_totalA {A : Arith} (ms : gmap N (MenuA.t A))
    (its : list (ReqItemA A)) : num A :=
  fold_left
    (λ acc r,
       match ms !! reqA_menuItem r with
       | Some m => js_add A acc (js_mul A (MenuA.price m) (reqA_quantity r))
       | None => acc
       end)
    its (js_0 A).

Definition snapshotA {A : Arith} (ms : gmap N (MenuA.t A))
    (r : ReqItemA A) (it : OrderA.Item A) : Prop :=
  OrderA.menuItem it = reqA_menuItem r
  ∧ OrderA.quantity it = reqA_quantity r
  ∧ ∃ m, ms !! reqA_menuItem r = Some m
         ∧ OrderA.itemName it = MenuA.itemName m
         ∧ OrderA.price it = MenuA.price m.

(** The requested line names a catalog item and passes the stock test. *)
Definition within_stockA {A : Arith} (ms : gmap N (MenuA.t A))
    (r : ReqItemA A) : Prop :=
  ∃ m, ms !! reqA_menuItem r = Some m
       ∧ js_lt A (MenuA.stockCount m) (reqA_quantity r) = false.

(** The requested line passes the validators of a line item. *)
Definition line_okA {A : Arith} (ms : gmap N (MenuA.t A))
    (r : ReqItemA A) : Prop :=
  js_ge A (reqA_quantity r) (js_1 A) = true
  ∧ ∀ m, ms !! reqA_menuItem r = Some m → MenuA.itemName m ≠ "".

(** What the stock loop does to one catalog item: one [$inc] for each line
    that names it, in the order of the lines. *)
Definition apply_linesA {A : Arith} (delta : OrderA.Item A → num A) (k : N)
    (its : list (OrderA.Item A)) (m : MenuA.t A) : MenuA.t A :=
  fold_left
    (λ m it,
       if bool_decide (OrderA.menuItem it = k)
       then MenuA.inc_stockCount (delta it) m else m)
    its m.

(** *** The doubles *)

(** The double nearest to an integer. *)
Definition dbl (n : Z) : SpecFloat.spec_float :=
  SpecFloat.binary_normalize 53 1024 n 0 false.

Definition binary64 : Arith :=
  mkArith SpecFloat.spec_float
          (SpecFloat.S754_zero false) (dbl 1) (dbl 100)
          (SpecFloat.SFadd 53 1024) (SpecFloat.SFmul 53 1024)
          SpecFloat.SFopp SpecFloat.SFltb
          (λ a b, SpecFloat.SFleb b a)
          (SpecFloat.SFadd 53 1024).

(** The integer that a double denotes, when it denotes one. *)
Definition double_integer (x : SpecFloat.spec_float) : option Z :=
  match x with
  | SpecFloat.S754_zero _ => Some 0
  | SpecFloat.S754_finite s m e =>
      let sign := if s then -1 else 1 in
      if 0 <=? e then Some (sign * (Z.pos m * 2 ^ e))
      else if Z.pos m mod 2 ^ (- e) =? 0
           then Some (sign * (Z.pos m / 2 ^ (- e)))
           else None
  | _ => None
  end.

(** The catalog of the scenario, in doubles. *)
Definition itemA64 : MenuA.t binary64 :=
  @MenuA.mk binary64 "ItemA" (dbl 10) (dbl 5) "" Menu.lunch true "" 0 0.

Definition itemB64 : MenuA.t binary64 :=
  @MenuA.mk binary64 "ItemB" (dbl 20) (dbl 1) "" Menu.snacks true "" 0 0.

Definition db64 : DbA binary64 :=
  @mkDbA binary64 (<[1%N := itemA64]> (<[2%N := itemB64]> ∅)) [].

Definition cart64 : list (ReqItemA binary64) :=
  [@mkReqA binary64 1 (dbl 2); @mkReqA binary64 2 (dbl 1)].

Definition cart_order64 : OrderA.t binary64 :=
  @OrderA.mk binary64 7
    [@OrderA.mkItem binary64 1 "ItemA" (dbl 2) (dbl 10);
     @OrderA.mkItem binary64 2 "ItemB" (dbl 1) (dbl 20)]
    (dbl 40) cart_handle Order.pending "" Order.pending_payment
    None None 1700000000001.

(** An item whose price is the largest safe integer, 2^53 - 1. *)
Definition big_price : Z := 9007199254740991.

Definition db_big : DbA binary64 :=
  @mkDbA binary64
    {[ 1%N := @MenuA.mk binary64 "Gold" (dbl big_price) (dbl 5) ""
                       Menu.desserts true "" 0 0 ]}
    [].

(** *** The integers

    The first model is the second one at the exact arithmetic of the
    integers: [menu_in], [order_in], [db_in], [request_in] and
    [response_in] read its data and its answers in the second one. *)

Definition integers : Arith :=
  mkArith Z 0 1 100 Z.add Z.mul Z.opp Z.ltb (λ a b, b <=? a) Z.add.

Definition menu_in (m : Menu.t) : MenuA.t integers :=
  @MenuA.mk integers (Menu.itemName m) (Menu.price m) (Menu.stockCount m)
            (Menu.imageURL m) (Menu.category m) (Menu.isAvailable m)
            (Menu.description m) (Menu.createdAt m) (Menu.updatedAt m).

Definition item_in (it : Order.Item) : OrderA.Item integers :=
  @OrderA.mkItem integers (Order.menuItem it) (Order.itemName it)
                 (Order.quantity it) (Order.price it).

Definition order_in (o : Order.t) : OrderA.t integers :=
  @OrderA.mk integers (Order.studentId o) (item_in <$> Order.items o)
             (Order.totalAmount o) (Order.razorpayOrderId o)
             (Order.paymentStatus o) (Order.qrCodeData o) (Order.status o)
             (Order.scannedAt o) (Order.deliveredAt o) (Order.createdAt o).

Definition db_in (db : Db) : DbA integers :=
  @mkDbA integers (menu_in <$> menus db) (order_in <$> orders db).

Definition body_in (b : Body) : BodyA integers :=
  match b with
  | BMessage m => AMessage m
  | BFailure m => AFailure m
  | BError m => AError m
  | BCheckout h id amount o => @ACheckout integers h id amount (order_in o)
  | BVerified m q => AVerified m q
  | BOrder m o => AOrder m (order_in o)
  end.

Definition response_in (r : Response) : ResponseA integers :=
  JsonA (code r) (body_in (body r)).

Definition req_in (r : ReqItem) : ReqItemA integers :=
  @mkReqA integers (req_menuItem r) (req_quantity r).

Definition request_in (r : Request) : RequestA integers :=
  match r with
  | Checkout user gw its => CheckoutA user gw (fmap (M:=list) req_in <$> its)
  | Verify oid pid sig => VerifyA oid pid sig
  | Scan q => ScanA q
  | Deliver id => DeliverA id
  | Cancel id => CancelA id
  end.

(** *** A run in doubles: two lines of one item

    The double nearest to [n / 10], which is the value of a literal such as
    [1.2]; an item with a stock of 4; a request for 1.2 and then 1.1 of
    it; its checkout, payment and cancellation. *)
Definition tenths (n : Z) : SpecFloat.spec_float :=
  SpecFloat.SFdiv 53 1024 (dbl n) (dbl 10).

Definition db_four : DbA binary64 :=
  @mkDbA binary64
    {[ 1%N := @MenuA.mk binary64 "Rice" (dbl 10) (dbl 4) ""
                       Menu.lunch true "" 0 0 ]}
    [].

Definition split_cart : list (ReqItemA binary64) :=
  [@mkReqA binary64 1 (tenths 12); @mkReqA binary64 1 (tenths 11)].

Definition split_checkout : Env * RequestA binary64 :=
  (env1, @CheckoutA binary64 7 NoClient (Some split_cart)).

Definition split_verify : Env * RequestA binary64 :=
  (env2, @VerifyA binary64 cart_handle "pay_1" "sig_1").

Definition split_cancel : Env * RequestA binary64 :=
  (env2, @CancelA binary64 0).

(** ** Lemmas on the models *)

Section FindOne.
Variable p : Order.t → bool.

Lemma findOne_from_Some os : ∀ k i o,
  Order.findOne_from k p os = Some (i, o) →
  (k ≤ i)%nat ∧ os !! (i - k)%nat = Some o ∧ p o = true
  ∧ ∀ j o', (j < i - k)%nat → os !! j = Some o' → p o' = false.
Proof.
  induction os as [|a os IH]; intros k i o; simpl; [done|].
  destruct (p a) eqn:Hp.
  - intros [= <- <-]. replace (k - k)%nat with 0%nat by lia.
    repeat split; [lia|done|]. intros j o' Hj. lia.
  - intros H. apply IH in H as (Hle & Hlk & Hpo & Hbefore).
    replace (i - k)%nat with (S (i - S k)) by lia.
    repeat split; [lia|done|done|].
    intros [|j] o' Hj; simpl.
    + by intros [= <-].
    + apply Hbefore. lia.
Qed.

Lemma findOne_Some os i o :
  Order.findOne p os = Some (i, o) →
  os !! i = Some o ∧ p o = true
  ∧ ∀ j o', (j < i)%nat → os !! j = Some o' → p o' = false.
Proof.
  intros H. apply findOne_from_Some in H as (_ & H1 & H2 & H3).
  rewrite Nat.sub_0_r in H1, H3. done.
Qed.

Lemma findOne_from_None os : ∀ k,
  Order.findOne_from k p os = None → Forall (λ o, p o = false) os.
Proof.
  induction os as [|a os IH]; intros k; simpl; [constructor|].
  destruct (p a) eqn:Hp; [done|]. intros H. constructor; eauto.
Qed.

Lemma findOne_from_is_Some os : ∀ k i o,
  os !! i = Some o → p o = true →
  is_Some (Order.findOne_from k p os).
Proof.
  induction os as [|a os IH]; intros k i o; [done|].
  simpl. destruct (p a) eqn:Hp; [eauto|].
  destruct i as [|i]; simpl.
  - intros [= ->]. congruence.
  - eauto.
Qed.
End FindOne.

Lemma pre_save_not_active ts rnd o :
  Order.status o ≠ Order.active → Order.pre_save ts rnd o = o.
Proof.
  intros H. unfold Order.pre_save.
  by rewrite (bool_decide_eq_false_2 _ H).
Qed.

Lemma qr_token_nonempty ts rnd : Order.qr_token ts rnd ≠ "".
Proof. done. Qed.

Lemma pre_save_core ts rnd o : same_core o (Order.pre_save ts rnd o).
Proof.
  unfold Order.pre_save, same_core.
  destruct (_ && _); simpl; done.
Qed.

Lemma pre_save_status ts rnd o :
  Order.status (Order.pre_save ts rnd o) = Order.status o.
Proof. unfold Order.pre_save. by destruct (_ && _). Qed.

(** The hook keeps a token that is already set, and sets it when an
    [active] order has none. *)
Lemma pre_save_qr ts rnd o :
  Order.qrCodeData (Order.pre_save ts rnd o) =
    if bool_decide (Order.status o = Order.active)
       && bool_decide (Order.qrCodeData o = "")
    then Order.qr_token ts rnd else Order.qrCodeData o.
Proof. unfold Order.pre_save. by destruct (_ && _). Qed.

(** ** The handlers refine the step relation *)

Lemma checkout_orders_step e user gw items db :
  orders_step e (Checkout user gw items) (orders db)
              (orders (snd (checkout e user gw items db))).
Proof.
  unfold checkout. destruct items as [[|x its]|]; try apply orders_same.
  destruct (checkout_loop _ _ _) as [r|[total its']]; [apply orders_same|].
  destruct (Order.validate _); [|apply orders_same].
  simpl. apply orders_create.
  - by rewrite pre_save_status.
  - by rewrite pre_save_qr.
Qed.

Lemma handle_orders_step e r db :
  orders_step e r (orders db) (orders (snd (handle e r db))).
Proof.
  destruct r as [user gw items|oid pid sig|qr|id|id]; simpl.
  - apply checkout_orders_step.
  - unfold verify; simpl.
    destruct (Order.findOne _ _) as [[id o]|] eqn:Hf; [|apply orders_same].
    apply findOne_Some in Hf as (Hid & Hp & _).
    apply bool_decide_eq_true in Hp as <-.
    simpl. eapply orders_save; [done|constructor].
  - unfold scan.
    destruct (Order.findOne _ _) as [[id o]|] eqn:Hf; [|apply orders_same].
    apply findOne_Some in Hf as (Hid & Hp & _).
    apply bool_decide_eq_true in Hp as <-.
    case_bool_decide as Hs; simpl; [|apply orders_same].
    eapply orders_save; [done|by constructor].
  - unfold deliver.
    destruct (orders db !! id) as [o|] eqn:Hid; [|apply orders_same].
    case_bool_decide as Hs; simpl; [|apply orders_same].
    eapply orders_save; [done|by constructor].
  - unfold cancel.
    destruct (orders db !! id) as [o|] eqn:Hid; [|apply orders_same].
    do 2 case_bool_decide; simpl; try apply orders_same.
    eapply orders_save; [done|by constructor].
Qed.

(** Checkout, scan and deliver never write to the menu. *)
Lemma checkout_menus e user gw items db :
  menus (snd (checkout e user gw items db)) = menus db.
Proof.
  unfold checkout. destruct items as [[|x its]|]; try done.
  destruct (checkout_loop _ _ _) as [r|[total its']]; [done|].
  by destruct (Order.validate _).
Qed.

Lemma scan_menus e qr db : menus (snd (scan e qr db)) = menus db.
Proof.
  unfold scan. destruct (Order.findOne _ _) as [[id o]|]; [|done].
  by destruct (negb _).
Qed.

Lemma deliver_menus e id db : menus (snd (deliver e id db)) = menus db.
Proof.
  unfold deliver. destruct (orders db !! id); [|done].
  by destruct (negb _).
Qed.

(** *** What one step does to one order *)

Lemma order_step_core e r o o' : order_step e r o o' → same_core o o'.
Proof.
  intros H. destruct H;
    match goal with
    | |- same_core _ (Order.pre_save ?ts ?rnd ?x) =>
        pose proof (pre_save_core ts rnd x) as Hc
    end; unfold same_core in *; simpl in *; done.
Qed.

(** The lifecycle transitions of scan, deliver and cancel are the ones of
    the state machine; verify moves the order to [active] whatever its
    state was. *)
Lemma order_step_status e r o o' :
  order_step e r o o' →
  match r with
  | Verify _ _ _ => Order.status o' = Order.active
  | Scan _ =>
      Order.status o = Order.active ∧ Order.status o' = Order.scanned
  | Deliver _ =>
      Order.status o = Order.scanned ∧ Order.status o' = Order.delivered
  | Cancel _ =>
      Order.status o ≠ Order.delivered ∧ Order.status o ≠ Order.scanned
      ∧ Order.status o' = Order.cancelled
  | Checkout _ _ _ => False
  end.
Proof. intros H. destruct H; rewrite pre_save_status; simpl; done. Qed.

(** A step changes the token only by setting an empty one, on a verify
    that makes the order [active]. *)
Lemma order_step_qr e r o o' :
  order_step e r o o' →
  Order.qrCodeData o' = Order.qrCodeData o
  ∨ (Order.qrCodeData o = ""
     ∧ Order.status o' = Order.active
     ∧ Order.qrCodeData o' = Order.qr_token (clock_save e) (random e)
     ∧ ∃ pid sig, r = Verify (Order.razorpayOrderId o) pid sig).
Proof.
  intros H. destruct H; rewrite pre_save_qr, ?pre_save_status; simpl.
  - case_bool_decide as Hq; simpl; [|by left].
    right. eauto 10.
  - by left.
  - by left.
  - by left.
Qed.


(** *** What one request, and a run, do to the order at a position *)

Lemma orders_step_lookup e r os os' i o :
  orders_step e r os os' → os !! i = Some o →
  ∃ o', os' !! i = Some o' ∧ (o' = o ∨ order_step e r o o').
Proof.
  intros H Hi. destruct H as [r os|? ? ? os o0 _ _|r os id o0 o0' Hid Hs].
  - eauto.
  - exists o. split; [|by left]. by apply lookup_app_l_Some.
  - destruct (decide (id = i)) as [->|Hne].
    + exists o0'. split.
      * apply list_lookup_insert_eq. by eapply lookup_lt_Some.
      * right. congruence.
    + exists o. split; [|by left]. by rewrite list_lookup_insert_ne.
Qed.

Lemma handle_lookup e r db i o :
  orders db !! i = Some o →
  ∃ o', orders (snd (handle e r db)) !! i = Some o'
        ∧ (o' = o ∨ order_step e r o o').
Proof. apply orders_step_lookup, handle_orders_step. Qed.

Lemma same_core_refl o : same_core o o.
Proof. by unfold same_core. Qed.

Lemma same_core_trans o1 o2 o3 :
  same_core o1 o2 → same_core o2 o3 → same_core o1 o3.
Proof.
  unfold same_core. intros (?&?&?&?&?) (?&?&?&?&?).
  repeat split; congruence.
Qed.

Lemma run_cons er rs db :
  run (er :: rs) db = run rs (snd (handle er.1 er.2 db)).
Proof. done. Qed.

Lemma run_snoc rs er db :
  run (rs ++ [er]) db = snd (handle er.1 er.2 (run rs db)).
Proof. unfold run. by rewrite fold_left_app. Qed.

(** Once created, an order keeps its owner, its line items, its total, its
    payment handle and its creation date through every later request. *)
Lemma run_core rs : ∀ db i o,
  orders db !! i = Some o →
  ∃ o', orders (run rs db) !! i = Some o' ∧ same_core o o'.
Proof.
  induction rs as [|[e r] rs IH]; intros db i o Hi.
  - exists o. split; [done|apply same_core_refl].
  - rewrite run_cons. simpl.
    destruct (handle_lookup e r db i o Hi) as (o1 & H1 & Hs).
    destruct (IH _ _ _ H1) as (o2 & H2 & Hc).
    exists o2. split; [done|].
    eapply same_core_trans; [|done].
    destruct Hs as [->|Hs]; [apply same_core_refl|by eapply order_step_core].
Qed.

(** ** Checkout *)

Lemma checkout_loop_inr ms : ∀ its acc total its',
  checkout_loop ms acc its = inr (total, its') →
  ∃ new, its' = acc.2 ++ new ∧ Forall2 (snapshot ms) its new.
Proof.
  induction its as [|x its IH]; intros [t l] total its'; simpl.
  - intros [= <- <-]. exists []. rewrite app_nil_r. by split.
  - unfold checkout_line.
    destruct (ms !! req_menuItem x) as [m|] eqn:Hm; [|done].
    destruct (Menu.stockCount m <? req_quantity x); [done|].
    intros H. apply IH in H as (new & -> & Hsnap). simpl.
    eexists (_ :: new). rewrite <- app_assoc. simpl.
    split; [done|].
    constructor; [|done]. unfold snapshot; simpl. eauto 10.
Qed.

(** An early response of the validation loop is the 404 of a line whose
    item is absent or the 400 of a line that exceeds the stock. *)
Lemma checkout_loop_inl ms : ∀ its acc r,
  checkout_loop ms acc its = inl r →
  ItemNotFound ms its r ∨ InsufficientStock ms its r.
Proof.
  induction its as [|x its IH]; intros acc r; simpl; [done|].
  unfold checkout_line.
  destruct (ms !! req_menuItem x) as [m|] eqn:Hm.
  - destruct (Z.ltb_spec (Menu.stockCount m) (req_quantity x)).
    + intros [= <-]. right. exists x, m.
      repeat split; [left|done|done].
    + intros Hl. apply IH in Hl as [(y & Hy & ?)|(y & m' & Hy & ?)].
      * left. exists y. split; [by right|done].
      * right. exists y, m'. split; [by right|done].
  - intros [= <-]. left. exists x. repeat split; [left|done].
Qed.

(** *** Requests that exceed the stock *)

Lemma checkout_line_within ms acc x :
  within_stock ms x → ∃ acc', checkout_line ms acc x = inr acc'.
Proof.
  intros (m & Hm & Hq). unfold checkout_line. rewrite Hm.
  destruct (Z.ltb_spec (Menu.stockCount m) (req_quantity x)); [lia|].
  by eexists.
Qed.

(** The lines before the first failing line are passed over; an absent
    item at that line is answered 404, an over-stock item 400 with its
    name. *)
Lemma checkout_loop_first_failure ms x post : ∀ pre acc,
  Forall (within_stock ms) pre →
  (ms !! req_menuItem x = None →
   checkout_loop ms acc (pre ++ x :: post)
   = inl (Json 404 (BMessage "Menu item not found")))
  ∧ (∀ m, ms !! req_menuItem x = Some m →
          Menu.stockCount m < req_quantity x →
          checkout_loop ms acc (pre ++ x :: post)
          = inl (Json 400
                   (BMessage ("Low stock for " +:+ Menu.itemName m)))).
Proof.
  induction pre as [|y pre IH]; intros acc Hpre; simpl.
  - unfold checkout_line. split.
    + by intros ->.
    + intros m -> Hlt.
      by destruct (Z.ltb_spec (Menu.stockCount m) (req_quantity x));
        [|lia].
  - apply Forall_cons in Hpre as [Hy Hpre].
    destruct (checkout_line_within ms acc y Hy) as [acc' ->].
    by apply IH.
Qed.

(** A request with an over-stock line has a first line that fails. *)
Lemma first_failing_line ms its :
  Exists (over_stock ms) its →
  ∃ pre x post, its = pre ++ x :: post
                ∧ Forall (within_stock ms) pre ∧ ¬ within_stock ms x.
Proof.
  induction its as [|y its IH]; intros Hex; [by apply Exists_nil in Hex|].
  assert (within_stock ms y ∨ ¬ within_stock ms y) as [Hy|Hy].
  { unfold within_stock. destruct (ms !! req_menuItem y) as [m|] eqn:Hm.
    - destruct (Z.le_gt_cases (req_quantity y) (Menu.stockCount m)).
      + left. eauto.
      + right. intros (m' & [= <-] & ?). lia.
    - right. by intros (m' & ? & _). }
  - destruct IH as (pre & x & post & -> & Hpre & Hx).
    { apply Exists_cons in Hex as [(m & Hm & Hlt)|Hex]; [|done].
      destruct Hy as (m' & Hm' & Hle). rewrite Hm in Hm'.
      injection Hm' as <-. lia. }
    exists (y :: pre), x, post. split; [done|]. split; [|done].
    by constructor.
  - exists [], y, its. split; [done|]. split; [constructor|done].
Qed.

(** C8, as the code has it.  When some requested quantity exceeds the
    stock of its item, checkout creates no order and leaves the database,
    hence every stock count, as it was, and the response is the one of the
    first line that fails (the first line that names no catalog item or
    asks for more than the stock): [NotFound] when that line names no
    catalog item, [InsufficientStock] with the name of its item when it
    asks for more than the stock. *)
Theorem checkout_over_stock e user gw its db :
  Exists (over_stock (menus db)) its →
  (checkout e user gw (Some its) db).2 = db
  ∧ (∃ pre x post, its = pre ++ x :: post
       ∧ Forall (within_stock (menus db)) pre
       ∧ ¬ within_stock (menus db) x)
  ∧ ∀ pre x post,
      its = pre ++ x :: post →
      Forall (within_stock (menus db)) pre →
      (menus db !! req_menuItem x = None →
       (checkout e user gw (Some its) db).1
       = Json 404 (BMessage "Menu item not found"))
      ∧ (∀ m, menus db !! req_menuItem x = Some m →
              Menu.stockCount m < req_quantity x →
              (checkout e user gw (Some its) db).1
              = Json 400
                  (BMessage ("Low stock for " +:+ Menu.itemName m))).
Proof.
  intros Hex.
  pose proof (first_failing_line _ _ Hex) as Hfirst.
  assert (∀ pre x post, its = pre ++ x :: post →
            Forall (within_stock (menus db)) pre →
            ∀ r, checkout_loop (menus db) (0, []) its = inl r →
                 checkout e user gw (Some its) db = (r, db)) as Hco.
  { intros pre x post -> _ r Hr. unfold checkout.
    destruct (pre ++ x :: post) eqn:E; [by destruct pre|]. by rewrite Hr. }
  split; [|split; [done|]].
  - destruct Hfirst as (pre & x & post & Hits & Hpre & Hx).
    destruct (checkout_loop_first_failure (menus db) x post pre (0, [])
                Hpre) as [Habsent Hover].
    destruct (menus db !! req_menuItem x) as [m|] eqn:Hm.
    + destruct (Z.le_gt_cases (req_quantity x) (Menu.stockCount m)).
      * destruct Hx. exists m. by split.
      * erewrite (Hco pre x post Hits Hpre); [done|].
        rewrite Hits. apply (Hover m eq_refl). lia.
    + erewrite (Hco pre x post Hits Hpre); [done|].
      rewrite Hits. by apply Habsent.
  - intros pre x post Hits Hpre.
    destruct (checkout_loop_first_failure (menus db) x post pre (0, [])
                Hpre) as [Habsent Hover].
    split.
    + intros Hnone. erewrite (Hco pre x post Hits Hpre); [done|].
      rewrite Hits. by apply Habsent.
    + intros m Hm Hlt. erewrite (Hco pre x post Hits Hpre); [done|].
      rewrite Hits. by apply Hover.
Qed.

(** C8 on a request for one unit of A, within stock, then three units of
    B, of which one is in stock: nothing changes and the answer names
    B. *)
Lemma checkout_over_stock_witness :
  (checkout env1 7 NoClient (Some [mkReq 1 1; mkReq 2 3]) db0).2 = db0
  ∧ (checkout env1 7 NoClient (Some [mkReq 1 1; mkReq 2 3]) db0).1
    = Json 400 (BMessage ("Low stock for " +:+ Menu.itemName itemB)).
Proof.
  destruct (checkout_over_stock env1 7 NoClient [mkReq 1 1; mkReq 2 3] db0)
    as (Hdb & _ & Hfirst).
  { right. left. exists itemB. split; [reflexivity|]. vm_compute.
    reflexivity. }
  split; [exact Hdb|].
  apply (Hfirst [mkReq 1 1] (mkReq 2 3) []); [reflexivity| |reflexivity|].
  - constructor; [|constructor]. exists itemA.
    split; [reflexivity|]. vm_compute. discriminate.
  - vm_compute. reflexivity.
Defined.

(** C8 as stated fails: a request whose first line names no catalog item
    and whose second line asks for ten units of A (five in stock) is
    answered 404 "Menu item not found", not [InsufficientStock]. *)
Lemma checkout_over_stock_after_absent_item :
  Exists (over_stock (menus db0)) [mkReq 99 1; mkReq 1 10]
  ∧ (checkout env1 7 NoClient (Some [mkReq 99 1; mkReq 1 10]) db0).1
    = Json 404 (BMessage "Menu item not found")
  ∧ ¬ InsufficientStock (menus db0) [mkReq 99 1; mkReq 1 10]
        (checkout env1 7 NoClient (Some [mkReq 99 1; mkReq 1 10]) db0).1.
Proof.
  split; [|split].
  - right. left. exists itemA. split; [reflexivity|]. vm_compute. reflexivity.
  - reflexivity.
  - intros (x & m & _ & _ & _ & H). vm_compute in H. discriminate.
Qed.

(** ** Scan and deliver *)

Lemma Forall2_save {P : Order.t → Order.t → Prop} os id o o' :
  (∀ x, P x x) → os !! id = Some o → P o o' →
  Forall2 P os (<[id := o']> os).
Proof.
  intros Hrefl Hid HP.
  rewrite <- (list_insert_id os id o) at 1 by done.
  apply Forall2_insert; [|done].
  apply Forall_Forall2_diag, Forall_forall. auto.
Qed.

Lemma same_but_status_scannedAt_refl o : same_but_status_scannedAt o o.
Proof. by unfold same_but_status_scannedAt, same_core. Qed.

Lemma same_but_status_deliveredAt_refl o : same_but_status_deliveredAt o o.
Proof. by unfold same_but_status_deliveredAt, same_core. Qed.

(** C10. Scan writes the status and [scannedAt] of the scanned order and
    nothing else, deliver writes the status and [deliveredAt] of the
    delivered order and nothing else.  The menu (hence every stock count)
    is the same afterwards; no order is added or removed; every order has
    the same owner, line items, total, payment handle, payment status, QR
    token, creation date and other timestamp as before; and every order
    but the one that a successful scan found by its token, or that a
    successful deliver was given by its id, is exactly as it was.  That
    one order is saved with the new status and the date of the request. *)
Theorem scan_deliver_frame e db :
  (∀ qrData,
     menus (scan e qrData db).2 = menus db
     ∧ Forall2 same_but_status_scannedAt
               (orders db) (orders (scan e qrData db).2)
     ∧ (∀ j oj, orders db !! j = Some oj →
          code (scan e qrData db).1 ≠ 200%nat
          ∨ (∀ o, Order.findOne (has_token qrData) (orders db)
                  ≠ Some (j, o)) →
          orders (scan e qrData db).2 !! j = Some oj)
     ∧ (code (scan e qrData db).1 = 200%nat →
        ∃ id o, Order.findOne (has_token qrData) (orders db) = Some (id, o)
                ∧ orders (scan e qrData db).2 !! id
                  = Some (Order.set_scannedAt (clock e)
                            (Order.set_status Order.scanned o))))
  ∧ (∀ id,
       menus (deliver e id db).2 = menus db
       ∧ Forall2 same_but_status_deliveredAt
                 (orders db) (orders (deliver e id db).2)
       ∧ (∀ j oj, orders db !! j = Some oj →
            code (deliver e id db).1 ≠ 200%nat ∨ j ≠ id →
            orders (deliver e id db).2 !! j = Some oj)
       ∧ (code (deliver e id db).1 = 200%nat →
          ∃ o, orders db !! id = Some o
               ∧ orders (deliver e id db).2 !! id
                 = Some (Order.set_deliveredAt (clock e)
                           (Order.set_status Order.delivered o)))).
Proof.
  split.
  - intros qr. split; [apply scan_menus|].
    unfold scan. fold (has_token qr).
    destruct (Order.findOne _ _) as [[id o]|] eqn:Hf; simpl.
    + apply findOne_Some in Hf as (Hid & _ & _).
      case_bool_decide as Hs; simpl.
      * rewrite pre_save_not_active by done.
        split; [|split].
        -- apply Forall2_save with o;
             [apply same_but_status_scannedAt_refl|done|].
           by unfold same_but_status_scannedAt, same_core.
        -- intros j oj Hj [?|Hne]; [done|].
           rewrite list_lookup_insert_ne; [done|].
           intros ->. by destruct (Hne o).
        -- intros _. exists id, o. split; [done|].
           apply list_lookup_insert_eq. by eapply lookup_lt_Some.
      * split; [|split; [done|done]].
        apply Forall_Forall2_diag, Forall_forall.
        auto using same_but_status_scannedAt_refl.
    + split; [|split; [done|done]].
      apply Forall_Forall2_diag, Forall_forall.
      auto using same_but_status_scannedAt_refl.
  - intros id. split; [apply deliver_menus|].
    unfold deliver.
    destruct (orders db !! id) as [o|] eqn:Hid; simpl.
    + case_bool_decide as Hs; simpl.
      * rewrite pre_save_not_active by done.
        split; [|split].
        -- apply Forall2_save with o;
             [apply same_but_status_deliveredAt_refl|done|].
           by unfold same_but_status_deliveredAt, same_core.
        -- intros j oj Hj [?|Hne]; [done|].
           by rewrite list_lookup_insert_ne.
        -- intros _. exists o. split; [done|].
           apply list_lookup_insert_eq. by eapply lookup_lt_Some.
      * split; [|split; [done|done]].
        apply Forall_Forall2_diag, Forall_forall.
        auto using same_but_status_deliveredAt_refl.
    + split; [|split; [done|done]].
      apply Forall_Forall2_diag, Forall_forall.
      auto using same_but_status_deliveredAt_refl.
Qed.

(** C10 on the two orders of [two_checkouts], the first one paid and then
    scanned: the second order is as it was. *)
Lemma scan_deliver_frame_witness :
  code (scan env1 "ORD-1700000005001-9c4107ee102b5d66"
          (run (two_checkouts ++ [(env2, Verify "order_a" "pay_a" "sig_a")])
               db0)).1 = 200%nat
  ∧ orders (scan env1 "ORD-1700000005001-9c4107ee102b5d66"
              (run (two_checkouts
                    ++ [(env2, Verify "order_a" "pay_a" "sig_a")]) db0)).2
      !! 1%nat
    = Some (Order.mk 8 [Order.mkItem 1 "ItemA" 1 10] 10 "order_b"
                     Order.pending "" Order.pending_payment None None
                     1700000000001).
Proof.
  split; [by vm_compute|].
  destruct (scan_deliver_frame env1
              (run (two_checkouts
                    ++ [(env2, Verify "order_a" "pay_a" "sig_a")]) db0))
    as [Hscan _].
  destruct (Hscan "ORD-1700000005001-9c4107ee102b5d66")
    as (_ & _ & Hother & _).
  apply Hother; [by vm_compute|].
  right. intros o. vm_compute. discriminate.
Defined.

(** ** The QR token *)








(** ** The lifecycle *)

(** X21. Checkout, scan, deliver and cancel move an order along the
    transitions of the state machine only (cancelling a cancelled order leaves it
    cancelled). *)
Lemma lifecycle_without_verify e r db i o :
  is_Verify r = false →
  orders db !! i = Some o →
  ∃ o', orders (handle e r db).2 !! i = Some o'
        ∧ allowed (Order.status o) (Order.status o').
Proof.
  intros Hr Hi.
  destruct (handle_lookup e r db i o Hi) as (o' & Ho' & [->|Hs]).
  { exists o. split; [done|by left]. }
  exists o'. split; [done|].
  apply order_step_status in Hs. unfold allowed.
  destruct r as [| | | |]; try done.
  - destruct Hs as [-> ->]. tauto.
  - destruct Hs as [-> ->]. tauto.
  - destruct Hs as (Hd & Hs & ->).
    destruct (Order.status o); tauto.
Qed.

(** Verify looks the order up by its payment handle and makes it [active]
    without reading its status. *)
Lemma verify_activates e oid pid sig db id o :
  Order.findOne (λ o, bool_decide (Order.razorpayOrderId o = oid))
                (orders db) = Some (id, o) →
  code (verify e oid pid sig db).1 = 200%nat
  ∧ Order.status <$> orders (verify e oid pid sig db).2 !! id
    = Some Order.active.
Proof.
  intros Hf. unfold verify. simpl. rewrite Hf. simpl. split; [done|].
  apply findOne_Some in Hf as (Hid & _ & _).
  rewrite list_lookup_insert_eq by by eapply lookup_lt_Some.
  simpl. by rewrite pre_save_status.
Qed.

(** C1 fails on the verify handler: sent again for the same payment
    handle, verify moves a cancelled, a scanned and a delivered order back
    to [active]. *)
Theorem verify_reopens_closed_orders :
  (Order.status <$> orders (run until_cancelled db0) !! 0%nat
     = Some Order.cancelled
   ∧ Order.status
       <$> orders (run (until_cancelled ++ [verify_again]) db0) !! 0%nat
     = Some Order.active)
  ∧ (Order.status <$> orders (run until_scanned db0) !! 0%nat
       = Some Order.scanned
     ∧ Order.status
         <$> orders (run (until_scanned ++ [verify_again]) db0) !! 0%nat
       = Some Order.active)
  ∧ (Order.status <$> orders (run until_delivered db0) !! 0%nat
       = Some Order.delivered
     ∧ Order.status
         <$> orders (run (until_delivered ++ [verify_again]) db0) !! 0%nat
       = Some Order.active).
Proof. repeat split; by vm_compute. Qed.

(** ** Stock *)

Lemma catalog_stock_nonneg :
  map_Forall (λ _ m, 0 ≤ Menu.stockCount m) (menus db0).
Proof.
  apply map_Forall_insert_2; [by vm_compute|].
  apply map_Forall_insert_2; [by vm_compute|].
  apply map_Forall_empty.
Qed.

Lemma catalog_isAvailable :
  map_Forall (λ _ m, Menu.isAvailable m = (0 <? Menu.stockCount m))
             (menus db0).
Proof.
  apply map_Forall_insert_2; [by vm_compute|].
  apply map_Forall_insert_2; [by vm_compute|].
  apply map_Forall_empty.
Qed.

(** C2 fails on the verify handler: from a catalog where every stock count
    is non-negative, two orders for the last unit of B both pass checkout
    (checkout reserves nothing) and both payments are verified, which
    leaves B with a stock of -1. *)
Theorem verify_drives_stock_negative :
  map_Forall (λ _ m, 0 ≤ Menu.stockCount m) (menus db0)
  ∧ Menu.stockCount <$> menus db0 !! 2%N = Some 1
  ∧ Menu.stockCount <$> menus (run oversell db0) !! 2%N = Some (-1).
Proof. split; [apply catalog_stock_nonneg|]. split; by vm_compute. Qed.

(** C9 fails on the verify handler: the [$inc] update does not go through
    the [save] hook that derives [isAvailable]; once the last unit of B is
    sold its stock is 0 and it is still marked available. *)
Theorem verify_leaves_isAvailable_stale :
  map_Forall (λ _ m, Menu.isAvailable m = (0 <? Menu.stockCount m))
             (menus db0)
  ∧ Menu.stockCount <$> menus (run sell_last_unit db0) !! 2%N = Some 0
  ∧ Menu.isAvailable <$> menus (run sell_last_unit db0) !! 2%N
    = Some true.
Proof. split; [apply catalog_isAvailable|]. split; by vm_compute. Qed.

(** C6 fails on the cancel handler: cancelling an order that is still
    [pending_payment], whose stock was never taken, is answered 200 and
    adds the ordered quantities to the stock: A goes from 5 to 7 and B from
    1 to 2. *)
Theorem cancel_pending_inflates_stock :
  Order.status <$> orders (run checkout_cart db0) !! 0%nat
    = Some Order.pending_payment
  ∧ Menu.stockCount <$> menus (run checkout_cart db0) !! 1%N = Some 5
  ∧ Menu.stockCount <$> menus (run checkout_cart db0) !! 2%N = Some 1
  ∧ code (cancel env2 0 (run checkout_cart db0)).1 = 200%nat
  ∧ Menu.stockCount
      <$> menus (cancel env2 0 (run checkout_cart db0)).2 !! 1%N = Some 7
  ∧ Menu.stockCount
      <$> menus (cancel env2 0 (run checkout_cart db0)).2 !! 2%N = Some 2.
Proof. repeat split; by vm_compute. Qed.

(** ** Payment verification *)

(** The handler never reads the payment id or the signature, and never
    answers "Payment verification failed". *)
Lemma verify_ignores_proof e oid pid sig pid' sig' db :
  verify e oid pid sig db = verify e oid pid' sig' db
  ∧ ¬ PaymentVerificationFailed (verify e oid pid sig db).1.
Proof.
  split; [done|]. unfold PaymentVerificationFailed, verify. simpl.
  destruct (Order.findOne _ _) as [[id o]|]; simpl; discriminate.
Qed.

(** C3 fails on the verify handler: [isSignatureValid] is the constant
    [true], so a request with an empty payment id and an empty signature
    is answered 200 and activates the order. *)
Theorem verify_accepts_empty_proof :
  Order.status <$> orders (run checkout_cart db0) !! 0%nat
    = Some Order.pending_payment
  ∧ (verify env1 cart_handle "" "" (run checkout_cart db0)).1
    = Json 200 (BVerified "Order activated and QR generated" cart_token)
  ∧ Order.status
      <$> orders (verify env1 cart_handle "" "" (run checkout_cart db0)).2
          !! 0%nat
    = Some Order.active
  ∧ Menu.stockCount
      <$> menus (verify env1 cart_handle "" "" (run checkout_cart db0)).2
          !! 1%N
    = Some 3.
Proof. repeat split; by vm_compute. Qed.

(** ** Scanning a token *)

Section FindOneInsert.
Variable p : Order.t → bool.

(** Saving a document that matches the filter exactly when the stored
    one does changes neither which document [findOne] returns nor the
    position it returns. *)
Lemma findOne_from_insert os : ∀ k j x x',
  os !! j = Some x → p x' = p x →
  Order.findOne_from k p (<[j := x']> os)
  = (λ io, (io.1, if decide (io.1 = k + j)%nat then x' else io.2))
      <$> Order.findOne_from k p os.
Proof.
  induction os as [|a os IH]; intros k j x x' Hj Hp; [done|].
  destruct j as [|j]; simpl in *.
  - injection Hj as ->. rewrite Hp. destruct (p x) eqn:Hx; simpl.
    + rewrite decide_True by lia. done.
    + destruct (Order.findOne_from (S k) p os) as [[i o]|] eqn:Hf;
        [|done].
      simpl. apply findOne_from_Some in Hf as (Hle & _).
      rewrite decide_False by lia. done.
  - destruct (p a); simpl.
    + rewrite decide_False by lia. done.
    + rewrite (IH (S k) j x x' Hj Hp).
      destruct (Order.findOne_from (S k) p os) as [[i o]|]; [|done].
      simpl. repeat case_decide; try done; exfalso; lia.
Qed.

Lemma findOne_from_app os l : ∀ k io,
  Order.findOne_from k p os = Some io →
  Order.findOne_from k p (os ++ l) = Some io.
Proof.
  induction os as [|a os IH]; intros k io; simpl; [done|].
  destruct (p a); [done|apply IH].
Qed.
End FindOneInsert.

(** A request other than verify leaves the order that a token designates
    the same document, at the same position. *)
Lemma orders_step_findOne_token e r os os' qrData id o :
  is_Verify r = false →
  orders_step e r os os' →
  Order.findOne (has_token qrData) os = Some (id, o) →
  ∃ o', Order.findOne (has_token qrData) os' = Some (id, o')
        ∧ (o' = o ∨ order_step e r o o').
Proof.
  intros Hr Hstep Hf.
  destruct Hstep as [r os|? ? ? os o0 _ _|r os j x x' Hj Hs].
  - eauto.
  - exists o. split; [|by left]. by apply findOne_from_app.
  - assert (has_token qrData x' = has_token qrData x) as Hp.
    { unfold has_token.
      destruct (order_step_qr _ _ _ _ Hs) as [->|(_ & _ & _ & ? & ? & ->)];
        done. }
    unfold Order.findOne.
    rewrite (findOne_from_insert _ _ _ _ _ _ Hj Hp).
    unfold Order.findOne in Hf. rewrite Hf. simpl.
    apply findOne_Some in Hf as (Hid & _).
    case_decide as Hd; subst.
    + exists x'. split; [done|]. right. congruence.
    + exists o. split; [done|by left].
Qed.

(** A successful scan leaves the token on an order that is [scanned]. *)
Lemma scan_success e qrData db :
  code (scan e qrData db).1 = 200%nat →
  ∃ id o, Order.findOne (has_token qrData) (orders (scan e qrData db).2)
          = Some (id, o)
          ∧ Order.status o = Order.scanned.
Proof.
  unfold scan. fold (has_token qrData).
  destruct (Order.findOne _ _) as [[id o]|] eqn:Hf; [|done].
  case_bool_decide as Hs; [|done]. simpl. intros _.
  pose proof Hf as (Hid & Hp & _)%findOne_Some.
  rewrite pre_save_not_active by done.
  eexists id, _. unfold Order.findOne.
  erewrite findOne_from_insert; [|exact Hid|].
  - unfold Order.findOne in Hf. rewrite Hf. simpl.
    rewrite decide_True by done. done.
  - done.
Qed.

(** Without verify, a token that designates a scanned or delivered order
    keeps designating that order, which stays scanned or delivered. *)
Lemma scanned_token_stays qrData rs :
  Forall (λ er, is_Verify er.2 = false) rs →
  ∀ db id o,
    Order.findOne (has_token qrData) (orders db) = Some (id, o) →
    Order.status o = Order.scanned ∨ Order.status o = Order.delivered →
    ∃ o', Order.findOne (has_token qrData) (orders (run rs db))
          = Some (id, o')
          ∧ (Order.status o' = Order.scanned
             ∨ Order.status o' = Order.delivered).
Proof.
  induction 1 as [|[e1 r] rs Hr _ IH]; intros db id o Hf Hs; [eauto|].
  rewrite run_cons. simpl in *.
  destruct (orders_step_findOne_token e1 r _ _ qrData id o Hr
              (handle_orders_step e1 r db) Hf) as (o' & Hf' & Ho').
  apply (IH _ id o' Hf').
  destruct Ho' as [->|Hstep]; [done|].
  apply order_step_status in Hstep.
  destruct r as [| | | |]; try done.
  - destruct Hstep as [Ha _]. rewrite Ha in Hs. by destruct Hs.
  - destruct Hstep as [_ ->]. by right.
  - destruct Hstep as (Hd & Hsc & _). by destruct Hs.
Qed.

(** X22. After a successful scan of a token, and as long as no verify
    request is served, every scan of the same token is refused with
    "Order is scanned" or "Order is delivered", the state the order is
    in. *)
Lemma scan_once_without_verify e e' qrData rs db :
  code (scan e qrData db).1 = 200%nat →
  Forall (λ er, is_Verify er.2 = false) rs →
  ∃ s, (s = Order.scanned ∨ s = Order.delivered)
       ∧ InvalidState s (scan e' qrData (run rs (scan e qrData db).2)).1.
Proof.
  intros (id & o & Hf & Hs)%scan_success Hrs.
  destruct (scanned_token_stays qrData rs Hrs _ id o Hf (or_introl Hs))
    as (o' & Hf' & Hs').
  exists (Order.status o'). split; [done|].
  revert Hf'. generalize (run rs (scan e qrData db).2). intros db' Hf'.
  unfold InvalidState, scan. fold (has_token qrData). rewrite Hf'.
  destruct Hs' as [-> | ->]; done.
Qed.

(** Scanning a token that no order holds is answered 404. *)
Lemma scan_unknown_token e qrData db :
  Forall (λ o, Order.qrCodeData o ≠ qrData) (orders db) →
  scan e qrData db = (Json 404 (BMessage "Invalid QR code"), db).
Proof.
  intros Hall. unfold scan. fold (has_token qrData).
  destruct (Order.findOne _ _) as [[id o]|] eqn:Hf; [|done].
  apply findOne_Some in Hf as (Hid & Hp & _).
  apply bool_decide_eq_true in Hp.
  by destruct (proj1 (Forall_lookup _ _) Hall id o Hid).
Qed.

(** C5 fails through the verify handler: the token of the scenario is
    scanned with success, a second scan is refused with
    "Order is scanned", and once the verify request has been served again
    the same token is scanned with success a second time. *)
Theorem scan_succeeds_again_after_verify :
  code (scan env1 cart_token (run (checkout_cart ++ [verify_cart]) db0)).1
    = 200%nat
  ∧ (scan env2 cart_token (run until_scanned db0)).1
    = Json 400 (BMessage "Order is scanned")
  ∧ code (scan env2 cart_token
            (run (until_scanned ++ [verify_again]) db0)).1
    = 200%nat
  ∧ Order.status
      <$> orders (scan env2 cart_token
                    (run (until_scanned ++ [verify_again]) db0)).2 !! 0%nat
    = Some Order.scanned.
Proof. repeat split; by vm_compute. Qed.

(** ** The stock loop on integer quantities *)




(** ** Invariants of the reachable databases *)

Lemma pre_save_other ts rnd o :
  Order.paymentStatus (Order.pre_save ts rnd o) = Order.paymentStatus o
  ∧ Order.scannedAt (Order.pre_save ts rnd o) = Order.scannedAt o
  ∧ Order.deliveredAt (Order.pre_save ts rnd o) = Order.deliveredAt o.
Proof. unfold Order.pre_save. by destruct (_ && _). Qed.

(** The order that checkout appends is a fresh pending order of the
    caller. *)
Lemma checkout_orders_shape e user gw items db :
  orders (checkout e user gw items db).2 = orders db
  ∨ ∃ o, orders (checkout e user gw items db).2 = orders db ++ [o]
         ∧ Order.studentId o = user
         ∧ Order.status o = Order.pending_payment
         ∧ Order.paymentStatus o = Order.pending
         ∧ Order.qrCodeData o = ""
         ∧ Order.scannedAt o = None
         ∧ Order.deliveredAt o = None
         ∧ Order.razorpayOrderId o = payment_handle e gw.
Proof.
  unfold checkout. destruct items as [[|x its]|]; try by left.
  destruct (checkout_loop _ _ _) as [r|[total its']]; [by left|].
  destruct (Order.validate _); [|by left].
  right. rewrite pre_save_not_active by done. eexists. by split.
Qed.

(** A property that holds of every fresh pending order and that every
    save keeps holds of every order, after every request. *)
Lemma handle_Forall (P : Order.t → Prop) e r db :
  (∀ o, Order.status o = Order.pending_payment →
        Order.paymentStatus o = Order.pending →
        Order.qrCodeData o = "" →
        Order.scannedAt o = None → Order.deliveredAt o = None → P o) →
  (∀ o o', order_step e r o o' → P o → P o') →
  Forall P (orders db) → Forall P (orders (handle e r db).2).
Proof.
  intros Hnew Hstep Hall.
  assert ((∀ u g i, r ≠ Checkout u g i) →
          Forall P (orders (handle e r db).2)) as Hsave.
  { intros Hr. destruct (handle_orders_step e r db).
    - done.
    - by destruct (Hr user gw items).
    - apply Forall_insert; [done|].
      eapply Hstep; [done|]. by eapply (proj1 (Forall_lookup _ _)). }
  destruct r as [user gw items|oid pid sig|qr|id|id];
    try (apply Hsave; discriminate).
  simpl.
  destruct (checkout_orders_shape e user gw items db)
    as [->|(o & -> & _ & ? & ? & ? & ? & ? & _)]; [done|].
  apply Forall_app. split; [done|]. constructor; [|constructor]. auto.
Qed.

Lemma reachable_Forall (P : Order.t → Prop) db :
  (∀ o, Order.status o = Order.pending_payment →
        Order.paymentStatus o = Order.pending →
        Order.qrCodeData o = "" →
        Order.scannedAt o = None → Order.deliveredAt o = None → P o) →
  (∀ e r o o', order_step e r o o' → P o → P o') →
  reachable db → Forall P (orders db).
Proof.
  intros Hnew Hstep (ms & rs & ->).
  induction rs as [|[e r] rs IH] using rev_ind; [constructor|].
  rewrite run_snoc. simpl. apply handle_Forall; eauto.
Qed.

Lemma order_step_payment_inv e r o o' :
  order_step e r o o' → payment_inv o → payment_inv o'.
Proof.
  intros H [Hserved Hnf]. unfold payment_inv.
  destruct H;
    match goal with
    | |- context [Order.pre_save ?ts ?rnd ?x] =>
        destruct (pre_save_other ts rnd x) as (-> & _ & _);
        rewrite (pre_save_status ts rnd x)
    end; simpl.
  - done.
  - split; [|done]. intros _. apply Hserved. by left.
  - split; [|done]. intros _. apply Hserved. right; by left.
  - split; [|done]. intros [?|[?|?]]; done.
Qed.

(** X4. In every database the handlers can reach, an order that is active,
    scanned or delivered has its payment marked completed, and no order
    has its payment marked failed: the handlers never write [failed]. *)
Theorem reachable_payment_completed db i o :
  reachable db → orders db !! i = Some o → payment_inv o.
Proof.
  intros Hreach Hi.
  eapply (proj1 (Forall_lookup _ _)); [|exact Hi].
  apply reachable_Forall; [| |done].
  - intros o0 Hs Hp _ _ _. unfold payment_inv. rewrite Hs, Hp.
    split; [intros [?|[?|?]]; done|done].
  - intros. by eapply order_step_payment_inv.
Qed.

(** X4 on the scenario, once the order is delivered. *)
Lemma reachable_payment_completed_witness :
  payment_inv
    (Order.mk 7 (Order.items cart_order) 40 cart_handle Order.completed
              cart_token Order.delivered (Some (clock env1))
              (Some (clock env1)) 1700000000001).
Proof.
  apply (reachable_payment_completed (run until_delivered db0) 0%nat).
  - exists catalog, until_delivered. reflexivity.
  - vm_compute. reflexivity.
Defined.

Lemma order_step_timestamp_inv e r o o' :
  order_step e r o o' → timestamp_inv o → timestamp_inv o'.
Proof.
  intros H (Hp & Hs & Hd & Hds). unfold timestamp_inv.
  destruct H;
    match goal with
    | |- context [Order.pre_save ?ts ?rnd ?x] =>
        destruct (pre_save_other ts rnd x) as (_ & -> & ->);
        rewrite (pre_save_status ts rnd x)
    end; simpl.
  all: repeat split; try done; try (intros [?|?]; done); eauto.
Qed.

(** X5. In every database the handlers can reach, a pending order has no
    scan date and no delivery date, a scanned or delivered order has a scan
    date, a delivered order has a delivery date, and an order with a
    delivery date has a scan date: nothing is delivered that was not
    scanned first. *)
Theorem reachable_timestamps db i o :
  reachable db → orders db !! i = Some o → timestamp_inv o.
Proof.
  intros Hreach Hi.
  eapply (proj1 (Forall_lookup _ _)); [|exact Hi].
  apply reachable_Forall; [| |done].
  - intros o0 Hs _ _ Hsc Hdl. unfold timestamp_inv. rewrite Hs, Hsc, Hdl.
    repeat split; try done; try (intros [?|?]; done).
  - intros. by eapply order_step_timestamp_inv.
Qed.

(** X5 on the scenario, once the order is delivered and its payment is
    verified again. *)
Lemma reachable_timestamps_witness :
  timestamp_inv
    (Order.mk 7 (Order.items cart_order) 40 cart_handle Order.completed
              cart_token Order.active (Some (clock env1))
              (Some (clock env1)) 1700000000001).
Proof.
  apply (reachable_timestamps
           (run (until_delivered ++ [verify_again]) db0) 0%nat).
  - exists catalog, (until_delivered ++ [verify_again]). reflexivity.
  - vm_compute. reflexivity.
Defined.

(** ** Which order verify reaches *)

Lemma findOne_first p os id o :
  (∀ j oj, (j < id)%nat → os !! j = Some oj → p oj = false) →
  os !! id = Some o → p o = true →
  Order.findOne p os = Some (id, o).
Proof.
  intros Hbefore Hid Hp.
  destruct (findOne_from_is_Some p os 0 id o Hid Hp) as [[i x] Hf].
  pose proof Hf as (Hi & Hpx & Hfirst)%findOne_Some.
  destruct (lt_eq_lt_dec i id) as [[Hlt| ->]|Hgt].
  - rewrite (Hbefore i x Hlt Hi) in Hpx. done.
  - unfold Order.findOne. rewrite Hf. congruence.
  - rewrite (Hfirst id o Hgt Hid) in Hp. done.
Qed.

Lemma same_but_payment_refl o : same_but_payment o o.
Proof. by unfold same_but_payment, same_core. Qed.

Lemma verify_frame_aux e oid pid sig db :
  (Forall (λ o, Order.razorpayOrderId o ≠ oid) (orders db) →
   verify e oid pid sig db = (Json 404 (BMessage "Order not found"), db))
  ∧ Forall2 same_but_payment (orders db) (orders (verify e oid pid sig db).2)
  ∧ ∀ j oj, orders db !! j = Some oj →
      Order.razorpayOrderId oj ≠ oid
      ∨ (∃ i oi, (i < j)%nat ∧ orders db !! i = Some oi
                 ∧ Order.razorpayOrderId oi = oid) →
      orders (verify e oid pid sig db).2 !! j = Some oj.
Proof.
  unfold verify. simpl. fold (has_handle oid).
  destruct (Order.findOne _ _) as [[id o]|] eqn:Hf; simpl.
  - pose proof Hf as (Hid & Hp & Hfirst)%findOne_Some.
    apply bool_decide_eq_true in Hp.
    split; [|split].
    + intros Hall. by destruct (proj1 (Forall_lookup _ _) Hall id o Hid).
    + apply Forall2_save with o; [apply same_but_payment_refl|done|].
      unfold same_but_payment.
      destruct (pre_save_other (clock_save e) (random e)
                  (Order.set_status Order.active
                     (Order.set_paymentStatus Order.completed o)))
        as (_ & -> & ->).
      split; [|done].
      apply (pre_save_core (clock_save e) (random e)
               (Order.set_status Order.active
                  (Order.set_paymentStatus Order.completed o))).
    + intros j oj Hj Hother.
      rewrite list_lookup_insert_ne; [done|]. intros ->.
      destruct Hother as [Hne|(i & oi & Hlt & Hi & Hoi)].
      * congruence.
      * specialize (Hfirst i oi Hlt Hi).
        apply bool_decide_eq_false in Hfirst. done.
  - split; [done|]. split; [|done].
    apply Forall_Forall2_diag, Forall_forall.
    auto using same_but_payment_refl.
Qed.

(** X6. Verify is answered 404 and changes nothing when no order has the
    payment handle.  Otherwise it saves one order, the first one with that
    handle: that order keeps its owner, line items, total, handle, dates;
    every other order, and in particular every order with another handle,
    is left exactly as it was. *)
Theorem verify_frame e oid pid sig db :
  (Forall (λ o, Order.razorpayOrderId o ≠ oid) (orders db) →
   verify e oid pid sig db = (Json 404 (BMessage "Order not found"), db))
  ∧ Forall2 same_but_payment (orders db) (orders (verify e oid pid sig db).2)
  ∧ ∀ j oj, orders db !! j = Some oj →
      Order.razorpayOrderId oj ≠ oid
      ∨ (∃ i oi, (i < j)%nat ∧ orders db !! i = Some oi
                 ∧ Order.razorpayOrderId oi = oid) →
      orders (verify e oid pid sig db).2 !! j = Some oj.
Proof.
  unfold verify. simpl. fold (has_handle oid).
  destruct (Order.findOne _ _) as [[id o]|] eqn:Hf; simpl.
  - pose proof Hf as (Hid & Hp & Hfirst)%findOne_Some.
    apply bool_decide_eq_true in Hp.
    split; [|split].
    + intros Hall. by destruct (proj1 (Forall_lookup _ _) Hall id o Hid).
    + apply Forall2_save with o; [apply same_but_payment_refl|done|].
      unfold same_but_payment.
      destruct (pre_save_other (clock_save e) (random e)
                  (Order.set_status Order.active
                     (Order.set_paymentStatus Order.completed o)))
        as (_ & -> & ->).
      split; [|done].
      apply (pre_save_core (clock_save e) (random e)
               (Order.set_status Order.active
                  (Order.set_paymentStatus Order.completed o))).
    + intros j oj Hj Hother.
      rewrite list_lookup_insert_ne; [done|]. intros ->.
      destruct Hother as [Hne|(i & oi & Hlt & Hi & Hoi)].
      * congruence.
      * specialize (Hfirst i oi Hlt Hi).
        apply bool_decide_eq_false in Hfirst. done.
  - split; [done|]. split; [|done].
    apply Forall_Forall2_diag, Forall_forall.
    auto using same_but_payment_refl.
Qed.

(** X6 on the two pending orders of [two_checkouts]: verifying the second
    handle leaves the first order alone. *)
Lemma verify_frame_witness :
  orders (verify env2 "order_b" "pay_b" "sig_b"
            (run two_checkouts db0)).2 !! 0%nat
  = Some (Order.mk 7 [Order.mkItem 1 "ItemA" 1 10] 10 "order_a"
                   Order.pending "" Order.pending_payment None None
                   1700000000001).
Proof.
  destruct (verify_frame env2 "order_b" "pay_b" "sig_b"
              (run two_checkouts db0)) as (_ & _ & Hother).
  apply Hother; [vm_compute; reflexivity|].
  left. simpl. discriminate.
Defined.

(** X7. An order that stands behind an earlier order with the same payment
    handle (two mock handles built in the same millisecond, say) can never
    be paid: whatever requests follow, it stays pending or cancelled and
    its QR token stays as it is. *)
Theorem shadowed_order_never_activated rs : ∀ db i j oi oj,
  (i < j)%nat →
  orders db !! i = Some oi →
  orders db !! j = Some oj →
  Order.razorpayOrderId oi = Order.razorpayOrderId oj →
  Order.status oj = Order.pending_payment
  ∨ Order.status oj = Order.cancelled →
  ∃ oj', orders (run rs db) !! j = Some oj'
         ∧ (Order.status oj' = Order.pending_payment
            ∨ Order.status oj' = Order.cancelled)
         ∧ Order.qrCodeData oj' = Order.qrCodeData oj.
Proof.
  induction rs as [|[e r] rs IH]; intros db i j oi oj Hlt Hi Hj Hh Hs.
  { exists oj. by split. }
  rewrite run_cons. simpl.
  destruct (handle_lookup e r db i oi Hi) as (oi' & Hi' & Hoi').
  assert (Order.razorpayOrderId oi' = Order.razorpayOrderId oi) as Hh'.
  { destruct Hoi' as [->|Hstep]; [done|].
    by destruct (order_step_core _ _ _ _ Hstep) as (_ & _ & _ & ? & _). }
  assert (∃ oj1, orders (handle e r db).2 !! j = Some oj1
                 ∧ Order.razorpayOrderId oj1 = Order.razorpayOrderId oj
                 ∧ (Order.status oj1 = Order.pending_payment
                    ∨ Order.status oj1 = Order.cancelled)
                 ∧ Order.qrCodeData oj1 = Order.qrCodeData oj)
    as (oj1 & Hj1 & Hh1 & Hs1 & Hq1).
  { destruct (is_Verify r) eqn:Hr.
    - destruct r as [|oid pid sig| | |]; try done. simpl.
      exists oj. split; [|done].
      destruct (verify_frame_aux e oid pid sig db) as (_ & _ & Hother).
      apply Hother; [done|].
      destruct (decide (Order.razorpayOrderId oj = oid)) as [<-|Hne];
        [|by left].
      right. eauto.
    - destruct (handle_lookup e r db j oj Hj) as (oj1 & Hj1 & [->|Hstep]).
      { exists oj. by split. }
      exists oj1. split; [done|].
      split.
      { by destruct (order_step_core _ _ _ _ Hstep) as (_&_&_&?&_). }
      split.
      + apply order_step_status in Hstep.
        destruct r as [| | | |]; try done.
        * destruct Hstep as [Ha _]. rewrite Ha in Hs. by destruct Hs.
        * destruct Hstep as [Ha _]. rewrite Ha in Hs. by destruct Hs.
        * destruct Hstep as (_ & _ & ->). by right.
      + destruct (order_step_qr _ _ _ _ Hstep)
          as [?|(_ & _ & _ & ? & ? & ->)]; done. }
  destruct (IH _ i j oi' oj1 Hlt Hi' Hj1) as (oj' & Hj' & Hs' & Hq');
    [congruence|done|].
  exists oj'. split; [done|]. split; [done|congruence].
Qed.

(** X7 on two orders created in the same millisecond without a gateway:
    after both customers pay, the second order is still not active. *)
Lemma shadowed_order_never_activated_witness :
  ∃ oj', orders (run both_pay (run same_millisecond db0)) !! 1%nat
         = Some oj'
         ∧ (Order.status oj' = Order.pending_payment
            ∨ Order.status oj' = Order.cancelled)
         ∧ Order.qrCodeData oj' = "".
Proof.
  apply (shadowed_order_never_activated both_pay
           (run same_millisecond db0) 0%nat 1%nat
           (Order.mk 7 [Order.mkItem 1 "ItemA" 1 10] 10 cart_handle
                     Order.pending "" Order.pending_payment None None
                     1700000000001)
           (Order.mk 8 [Order.mkItem 1 "ItemA" 1 10] 10 cart_handle
                     Order.pending "" Order.pending_payment None None
                     1700000000001)).
  - lia.
  - vm_compute. reflexivity.
  - vm_compute. reflexivity.
  - reflexivity.
  - left. reflexivity.
Defined.

(** ** From payment to delivery *)

(** X8. Once verify has answered with a token that no earlier order holds,
    scanning that token succeeds and stamps the scan date, delivering the
    order then succeeds, and a cancel after that is refused and changes
    nothing. *)
Theorem verify_scan_deliver e1 e2 e3 e4 oid pid sig db id o q :
  Order.findOne (has_handle oid) (orders db) = Some (id, o) →
  (verify e1 oid pid sig db).1
    = Json 200 (BVerified "Order activated and QR generated" q) →
  (∀ j oj, (j < id)%nat → orders db !! j = Some oj →
           Order.qrCodeData oj ≠ q) →
  let db1 := (verify e1 oid pid sig db).2 in
  let db2 := (scan e2 q db1).2 in
  let db3 := (deliver e3 id db2).2 in
  code (scan e2 q db1).1 = 200%nat
  ∧ Order.status <$> orders db2 !! id = Some Order.scanned
  ∧ Order.scannedAt <$> orders db2 !! id = Some (Some (clock e2))
  ∧ code (deliver e3 id db2).1 = 200%nat
  ∧ Order.status <$> orders db3 !! id = Some Order.delivered
  ∧ cancel e4 id db3
    = (Json 400
         (BMessage "Cannot cancel an order in progress or delivered"),
       db3).
Proof.
  intros Hf Hres Hfresh.
  pose proof Hf as (Hid & _ & _)%findOne_Some.
  pose proof (lookup_lt_Some _ _ _ Hid) as Hlen.
  set (o1 := Order.pre_save (clock_save e1) (random e1)
               (Order.set_status Order.active
                  (Order.set_paymentStatus Order.completed o))).
  assert (verify e1 oid pid sig db
          = (Json 200 (BVerified "Order activated and QR generated"
                                 (Order.qrCodeData o1)),
             mkDb (adjust_stock (-1) (Order.items o) (menus db))
                  (<[id := o1]> (orders db)))) as Hv.
  { unfold verify. simpl. fold (has_handle oid). by rewrite Hf. }
  rewrite Hv in Hres |- *. simpl in Hres. injection Hres as Hq.
  assert (Order.status o1 = Order.active) as Hact.
  { unfold o1. by rewrite pre_save_status. }
  simpl.
  set (os1 := <[id := o1]> (orders db)).
  set (ms1 := adjust_stock (-1) (Order.items o) (menus db)).
  assert (Order.findOne (has_token q) os1 = Some (id, o1)) as Hf1.
  { apply findOne_first.
    - intros j oj Hj. unfold os1.
      rewrite list_lookup_insert_ne by lia. intros Hoj.
      apply bool_decide_eq_false. by eapply Hfresh.
    - unfold os1. by apply list_lookup_insert_eq.
    - by apply bool_decide_eq_true. }
  set (o2 := Order.set_scannedAt (clock e2)
               (Order.set_status Order.scanned o1)).
  assert (scan e2 q (mkDb ms1 os1)
          = (Json 200 (BOrder "Order scanned successfully" o2),
             mkDb ms1 (<[id := o2]> os1))) as Hs.
  { unfold scan. fold (has_token q). simpl. rewrite Hf1.
    rewrite (bool_decide_eq_true_2 _ Hact). simpl.
    by rewrite pre_save_not_active. }
  rewrite Hs. simpl.
  assert (<[id := o2]> os1 !! id = Some o2) as Hid2.
  { apply list_lookup_insert_eq. unfold os1. by rewrite length_insert. }
  set (o3 := Order.set_deliveredAt (clock e3)
               (Order.set_status Order.delivered o2)).
  assert (deliver e3 id (mkDb ms1 (<[id := o2]> os1))
          = (Json 200 (BOrder "Delivered" o3),
             mkDb ms1 (<[id := o3]> (<[id := o2]> os1)))) as Hd.
  { unfold deliver. simpl. rewrite Hid2. simpl.
    by rewrite pre_save_not_active. }
  rewrite Hd. simpl. rewrite Hid2. simpl.
  assert (<[id := o3]> (<[id := o2]> os1) !! id = Some o3) as Hid3.
  { apply list_lookup_insert_eq. unfold os1. by rewrite !length_insert. }
  rewrite Hid3. simpl.
  repeat split; try done.
  unfold cancel. simpl. by rewrite Hid3.
Qed.

(** X8 on the scenario of the specification. *)
Lemma verify_scan_deliver_witness :
  let db1 := (verify env1 cart_handle "pay_1" "sig_1"
                (run checkout_cart db0)).2 in
  let db2 := (scan env2 cart_token db1).2 in
  let db3 := (deliver env2 0 db2).2 in
  code (scan env2 cart_token db1).1 = 200%nat
  ∧ Order.status <$> orders db2 !! 0%nat = Some Order.scanned
  ∧ Order.scannedAt <$> orders db2 !! 0%nat = Some (Some (clock env2))
  ∧ code (deliver env2 0 db2).1 = 200%nat
  ∧ Order.status <$> orders db3 !! 0%nat = Some Order.delivered
  ∧ cancel env2 0 db3
    = (Json 400
         (BMessage "Cannot cancel an order in progress or delivered"),
       db3).
Proof.
  apply (verify_scan_deliver env1 env2 env2 env2 cart_handle "pay_1" "sig_1"
           (run checkout_cart db0) 0%nat cart_order cart_token).
  - vm_compute. reflexivity.
  - vm_compute. reflexivity.
  - intros j oj Hj. lia.
Defined.

(** ** The payment gateway at checkout *)

Lemma same_but_handle_refl o : same_but_handle o o.
Proof. by unfold same_but_handle. Qed.

(** X9. The gateway decides the payment handle and nothing else: with no
    client, with a client that answers and with a client that throws,
    checkout gives the same status code, leaves the menu alone and stores
    the same orders up to the handle of the new one, which is the
    gateway's order id when it answered and a mock id built from the clock
    otherwise. *)
Theorem checkout_gateway_fallback e user gw gw' items db :
  code (checkout e user gw items db).1
    = code (checkout e user gw' items db).1
  ∧ menus (checkout e user gw items db).2 = menus db
  ∧ Forall2 same_but_handle (orders (checkout e user gw items db).2)
                            (orders (checkout e user gw' items db).2)
  ∧ (orders (checkout e user gw items db).2 = orders db
     ∨ ∃ o, orders (checkout e user gw items db).2 = orders db ++ [o]
            ∧ Order.razorpayOrderId o
              = match gw with
                | OrderCreated id => id
                | _ => "mock_order_" +:+ pretty (clock e)
                end).
Proof.
  split; [|split; [apply checkout_menus|split]].
  - unfold checkout. destruct items as [[|x its]|]; try done.
    destruct (checkout_loop _ _ _) as [r|[total its']]; [done|].
    unfold Order.validate. simpl. by destruct (_ && _).
  - unfold checkout. destruct items as [[|x its]|];
      try (apply Forall_Forall2_diag, Forall_forall;
           auto using same_but_handle_refl).
    destruct (checkout_loop _ _ _) as [r|[total its']];
      [apply Forall_Forall2_diag, Forall_forall;
       auto using same_but_handle_refl|].
    unfold Order.validate. simpl. destruct (_ && _); simpl;
      [|apply Forall_Forall2_diag, Forall_forall;
        auto using same_but_handle_refl].
    apply Forall2_app;
      [apply Forall_Forall2_diag, Forall_forall;
       auto using same_but_handle_refl|].
    constructor; [|constructor].
    rewrite !pre_save_not_active by done. by unfold same_but_handle.
  - destruct (checkout_orders_shape e user gw items db)
      as [?|(o & ? & _ & _ & _ & _ & _ & _ & Hh)]; [by left|].
    right. exists o. split; [done|]. rewrite Hh. by destruct gw.
Qed.

(** ** The shape of the QR token *)

Lemma append_inj_length s1 : ∀ s2 t1 t2,
  s1 +:+ t1 = s2 +:+ t2 → String.length s1 = String.length s2 →
  s1 = s2 ∧ t1 = t2.
Proof.
  induction s1 as [|c s1 IH]; intros [|d s2] t1 t2; simpl; try done.
  intros [= -> H] [= Hlen]. by destruct (IH _ _ _ H Hlen) as [-> ->].
Qed.

Lemma string_length_app s1 s2 :
  String.length (s1 +:+ s2) = (String.length s1 + String.length s2)%nat.
Proof. induction s1 as [|c s1 IH]; simpl; [done|by rewrite IH]. Qed.

Lemma hex_digit_length n : String.length (Order.hex_digit n) = 1%nat.
Proof.
  unfold Order.hex_digit.
  repeat match goal with |- context [match ?x with _ => _ end] =>
    destruct x end; done.
Qed.

Lemma hex_digit_inj (k l : nat) :
  (k < 16)%nat → (l < 16)%nat →
  Order.hex_digit (N.of_nat k) = Order.hex_digit (N.of_nat l) → k = l.
Proof.
  intros Hk Hl.
  do 16 (destruct k as [|k];
         [do 16 (destruct l as [|l]; [vm_compute; congruence|]); lia|]).
  lia.
Qed.

Lemma hex_of_byte_inj b b' :
  Order.hex_of_byte b = Order.hex_of_byte b' → b = b'.
Proof.
  unfold Order.hex_of_byte. intros H.
  apply append_inj_length in H as [Hhi Hlo];
    [|by rewrite !hex_digit_length].
  pose proof (Byte.to_N_bounded b) as Hb.
  pose proof (Byte.to_N_bounded b') as Hb'.
  assert (Byte.to_N b = Byte.to_N b') as Heq.
  { rewrite (N.div_mod (Byte.to_N b) 16), (N.div_mod (Byte.to_N b') 16)
      by done.
    rewrite <- (N2Nat.id (Byte.to_N b / 16)) in Hhi |- *.
    rewrite <- (N2Nat.id (Byte.to_N b' / 16)) in Hhi |- *.
    rewrite <- (N2Nat.id (Byte.to_N b mod 16)) in Hlo |- *.
    rewrite <- (N2Nat.id (Byte.to_N b' mod 16)) in Hlo |- *.
    apply hex_digit_inj in Hhi, Hlo; [congruence|..].
    - pose proof (N.mod_upper_bound (Byte.to_N b) 16). lia.
    - pose proof (N.mod_upper_bound (Byte.to_N b') 16). lia.
    - assert (Byte.to_N b / 16 < 16)%N
        by (apply N.Div0.div_lt_upper_bound; lia). lia.
    - assert (Byte.to_N b' / 16 < 16)%N
        by (apply N.Div0.div_lt_upper_bound; lia). lia. }
  pose proof (Byte.of_to_N b) as H1. pose proof (Byte.of_to_N b') as H2.
  congruence.
Qed.

Lemma toString_hex_length buf :
  String.length (Order.toString_hex buf) = (2 * length buf)%nat.
Proof.
  induction buf as [|b buf IH]; simpl; [done|].
  unfold Order.hex_of_byte.
  rewrite !string_length_app, !hex_digit_length, IH. lia.
Qed.

Lemma toString_hex_inj buf : ∀ buf',
  Order.toString_hex buf = Order.toString_hex buf' → buf = buf'.
Proof.
  induction buf as [|b buf IH]; intros [|b' buf'] H; simpl in H.
  - done.
  - apply (f_equal String.length) in H.
    unfold Order.hex_of_byte in H.
    rewrite !string_length_app, !hex_digit_length in H. done.
  - apply (f_equal String.length) in H.
    unfold Order.hex_of_byte in H.
    rewrite !string_length_app, !hex_digit_length in H. done.
  - apply append_inj_length in H as [Hb Hrest].
    + f_equal; [by apply hex_of_byte_inj|by apply IH].
    + unfold Order.hex_of_byte.
      by rewrite !string_length_app, !hex_digit_length.
Qed.

(** X10. Two QR tokens built from random buffers of the same length (the
    hook always draws eight bytes) are equal only if the timestamps are
    equal and the random bytes are equal: the token loses nothing of the
    clock value and of the randomness it is built from. *)
Theorem qr_token_inj ts ts' rnd rnd' :
  length rnd = length rnd' →
  Order.qr_token ts rnd = Order.qr_token ts' rnd' →
  ts = ts' ∧ rnd = rnd'.
Proof.
  intros Hlen. unfold Order.qr_token. intros H.
  apply append_inj_length in H as [_ H]; [|done].
  apply append_inj_length in H as [Hts H].
  - apply append_inj_length in H as [_ H]; [|done]. split.
    + by apply (inj pretty).
    + by apply toString_hex_inj.
  - apply (f_equal String.length) in H.
    rewrite !string_length_app, !toString_hex_length, Hlen in H.
    simpl in H. lia.
Qed.

(** X10 on the token of [env1]. *)
Lemma qr_token_inj_witness :
  clock_save env1 = clock_save env1 ∧ random env1 = random env1.
Proof.
  apply (qr_token_inj (clock_save env1) (clock_save env1)
           (random env1) (random env1)); reflexivity.
Defined.

(** ** Reading orders *)

Lemma newer_first_total : Total newer_first.
Proof. intros a b. unfold newer_first. lia. Qed.

Lemma is_student_true u : is_student u = true ↔ role u = "student".
Proof. unfold is_student. apply bool_decide_eq_true. Qed.

(** X11. [GET /api/orders] is answered 200 with a count that is the length
    of the list, and the list holds, each once and newest first, exactly
    the orders of the collection that the caller may see: all of them, or
    for a caller whose role is [student] the ones that caller owns. *)
Theorem get_orders_lists_visible u db :
  ∃ data,
    get_orders u db = ReadJson 200 (ROrders (length data) data)
    ∧ data ≡ₚ filter (visible_to u) (imap pair (orders db))
    ∧ NoDup data
    ∧ (∀ i o, (i, o) ∈ data ↔
         orders db !! i = Some o
         ∧ (role u = "student" → Order.studentId o = user_id u))
    ∧ Sorted newer_first data.
Proof.
  eexists. split; [reflexivity|].
  assert (∀ i o, (i, o) ∈ imap pair (orders db) ↔ orders db !! i = Some o)
    as Hmem.
  { intros i o. rewrite elem_of_lookup_imap. split.
    - by intros (j & y & [= -> ->] & Hj).
    - intros Hi. by exists i, o. }
  split; [apply merge_sort_Permutation|]. split; [|split].
  - rewrite merge_sort_Permutation. apply NoDup_filter.
    apply NoDup_alt. intros j1 j2 [i o] H1 H2.
    rewrite list_lookup_imap in H1, H2.
    destruct (orders db !! j1) eqn:E1; [|done].
    destruct (orders db !! j2) eqn:E2; [|done].
    simpl in *. congruence.
  - intros i o. rewrite merge_sort_Permutation, list_elem_of_filter, Hmem.
    unfold visible_to. simpl. rewrite is_student_true. tauto.
  - apply Sorted_merge_sort, newer_first_total.
Qed.

(** X12. [GET /api/orders/:id] never hands an order to a student who does
    not own it: a body that carries an order carries the order stored
    under that id, and when the caller's role is [student] the caller owns
    it.  A caller with any other role gets every stored order, and a
    student whose account exists gets every order of theirs. *)
Theorem get_order_authorization accounts u id db :
  (∀ o, read_body (get_order accounts u id db) = ROrderData o →
        orders db !! id = Some o
        ∧ (role u = "student" → Order.studentId o = user_id u))
  ∧ (∀ o, orders db !! id = Some o →
          role u ≠ "student"
          ∨ (Order.studentId o = user_id u ∧ user_id u ∈ accounts) →
          get_order accounts u id db = ReadJson 200 (ROrderData o))
  ∧ (orders db !! id = None →
     get_order accounts u id db = ReadJson 404 (RFailure "Order not found")).
Proof.
  unfold get_order. split; [|split].
  - intros o. destruct (orders db !! id) as [order|]; [|done].
    destruct (is_student u) eqn:Hs.
    + case_bool_decide; [|done]. case_bool_decide; [|done].
      simpl. by intros [= ->].
    + simpl. intros [= ->]. split; [done|].
      intros Hr%is_student_true. congruence.
  - intros o -> [Hr|[Ho Hacc]].
    + destruct (is_student u) eqn:Hs; [|done].
      by apply is_student_true in Hs.
    + destruct (is_student u); [|done].
      rewrite Ho, (bool_decide_eq_true_2 _ Hacc).
      by rewrite bool_decide_eq_true_2.
  - by intros ->.
Qed.

(** X12 on the scenario: student 8 asks for the order of student 7 and is
    refused; an admin gets it. *)
Lemma get_order_authorization_witness :
  get_order {[7%N; 8%N]} (mkUser 8 "student") 0 (run checkout_cart db0)
    = ReadJson 403 (RFailure "Not authorized")
  ∧ get_order {[7%N; 8%N]} (mkUser 9 "admin") 0 (run checkout_cart db0)
    = ReadJson 200 (ROrderData cart_order).
Proof.
  split; [by vm_compute|].
  destruct (get_order_authorization {[7%N; 8%N]} (mkUser 9 "admin") 0%nat
              (run checkout_cart db0)) as (_ & Hadmin & _).
  apply Hadmin; [by vm_compute|]. left. simpl. discriminate.
Defined.

(** ** The menu routes *)

Lemma string_compare_refl s : String.compare s s = Eq.
Proof.
  induction s as [|c s IH]; simpl; [done|].
  assert (Ascii.compare c c = Eq) as ->; [|done].
  pose proof (Ascii.compare_antisym c c) as H.
  destruct (Ascii.compare c c); simpl in H; done.
Qed.

Lemma menu_order_total : Total menu_order.
Proof.
  intros a b. unfold menu_order. simpl.
  set (ca := Category_to_string (Menu.category a.2)).
  set (cb := Category_to_string (Menu.category b.2)).
  unfold String.ltb, String.leb.
  rewrite (String.compare_antisym ca cb).
  rewrite (String.compare_antisym (Menu.itemName a.2) (Menu.itemName b.2)).
  destruct (String.compare cb ca) eqn:Hc; simpl;
    [|by right; left|by left; left].
  apply String.compare_eq_iff in Hc.
  destruct (String.compare (Menu.itemName b.2) (Menu.itemName a.2));
    simpl; [right; right|right; right|left; right]; by split.
Qed.

Lemma get_menu_lists_matching_aux js category available ms :
  ∃ data,
    get_menu js category available ms
      = MenuJson 200 (MList (length data) data)
    ∧ NoDup data
    ∧ (∀ id m, (id, m) ∈ data ↔
         ms !! id = Some m
         ∧ (∀ c, category = Some c → c ≠ "" →
              Category_to_string (Menu.category m) = toLowerCase js c)
         ∧ (available = Some "true" →
            Menu.isAvailable m = true ∧ 0 < Menu.stockCount m))
    ∧ Sorted menu_order data.
Proof.
  eexists. split; [reflexivity|]. split; [|split].
  - rewrite merge_sort_Permutation.
    apply NoDup_filter, NoDup_map_to_list.
  - intros id m.
    rewrite merge_sort_Permutation, list_elem_of_filter,
      elem_of_map_to_list.
    unfold menu_filter. simpl. tauto.
  - apply Sorted_merge_sort, menu_order_total.
Qed.

(** X13. [GET /api/menu] is answered 200 with a count that is the length
    of the list, and the list holds, each once and sorted by category and
    then by name, exactly the items that pass the query: with
    [available=true] an item is listed only if its flag is set and its
    stock is positive, with a non-empty [category] only if its category is
    the lower-cased parameter. *)
Theorem get_menu_lists_matching js category available ms :
  ∃ data,
    get_menu js category available ms
      = MenuJson 200 (MList (length data) data)
    ∧ NoDup data
    ∧ (∀ id m, (id, m) ∈ data ↔
         ms !! id = Some m
         ∧ (∀ c, category = Some c → c ≠ "" →
              Category_to_string (Menu.category m) = toLowerCase js c)
         ∧ (available = Some "true" →
            Menu.isAvailable m = true ∧ 0 < Menu.stockCount m))
    ∧ Sorted menu_order data.
Proof.
  eexists. split; [reflexivity|]. split; [|split].
  - rewrite merge_sort_Permutation.
    apply NoDup_filter, NoDup_map_to_list.
  - intros id m.
    rewrite merge_sort_Permutation, list_elem_of_filter,
      elem_of_map_to_list.
    unfold menu_filter. simpl. tauto.
  - apply Sorted_merge_sort, menu_order_total.
Qed.

Lemma Category_of_string_Some s c :
  Category_of_string s = Some c → Category_to_string c = s.
Proof.
  unfold Category_of_string.
  repeat (case_bool_decide; [by intros [= <-]|]). done.
Qed.

(** The category enum survives the trip through its strings. *)
Lemma Category_of_to_string c :
  Category_of_string (Category_to_string c) = Some c.
Proof. by destruct c. Qed.

(** What a 201 of [POST /api/menu/add] has stored. *)
Lemma add_menu_item_created js e b ms :
  (menu_code (add_menu_item js e b ms).1 = 201%nat →
   ∃ m name cat,
     (add_menu_item js e b ms).1
       = MenuJson 201 (MItem "Menu item added successfully"
                             (menu_new_id e, m))
     ∧ ms !! menu_new_id e = None
     ∧ (add_menu_item js e b ms).2 = <[menu_new_id e := m]> ms
     ∧ add_itemName b = Some name ∧ Menu.itemName m = trim js name
     ∧ Menu.itemName m ≠ ""
     ∧ 0 ≤ Menu.price m
     ∧ add_stockCount b = Some (Menu.stockCount m)
     ∧ 0 ≤ Menu.stockCount m
     ∧ add_category b = Some cat
     ∧ Category_to_string (Menu.category m)
       = toLowerCase js (toLowerCase js cat)
     ∧ Menu.isAvailable m = (0 <? Menu.stockCount m))
  ∧ (menu_code (add_menu_item js e b ms).1 ≠ 201%nat →
     (add_menu_item js e b ms).2 = ms).
Proof.
  unfold add_menu_item.
  destruct (add_itemName b) as [name|]; [|done].
  destruct (add_price b) as [price|]; [|done].
  destruct (add_stockCount b) as [stock|]; [|done].
  destruct (add_category b) as [cat|]; [|done].
  destruct (bool_decide (name = "") || bool_decide (price = 0)
            || bool_decide (cat = "")) eqn:Hguard; [done|].
  unfold Menu_create.
  destruct (Category_of_string _) as [c|] eqn:Hc; [|done].
  destruct (bool_decide (trim js name = "") || (price <? 0)
            || (stock <? 0)) eqn:Hval; [done|].
  apply orb_false_iff in Hval as [Hval Hs].
  apply orb_false_iff in Hval as [Hn Hp].
  apply bool_decide_eq_false in Hn.
  apply Z.ltb_ge in Hs, Hp.
  destruct (ms !! menu_new_id e) eqn:Hid; [done|].
  simpl. split; [|done]. intros _.
  eexists _, name, cat. split; [reflexivity|]. simpl.
  repeat split; try done.
  by apply Category_of_string_Some.
Qed.

(** X14. When [POST /api/menu/add] answers 201 it has stored, under a
    fresh id and without touching any other item, an item that meets the
    schema: a non-empty trimmed name, a price and a stock that are not
    negative, a category of the enum that is the lower-cased requested
    one, and an availability flag that says whether the stock is positive.
    With any other answer the menu is as it was. *)
Theorem add_menu_item_stores_valid_item js e b ms :
  (menu_code (add_menu_item js e b ms).1 = 201%nat →
   ∃ m name cat,
     (add_menu_item js e b ms).1
       = MenuJson 201 (MItem "Menu item added successfully"
                             (menu_new_id e, m))
     ∧ ms !! menu_new_id e = None
     ∧ (add_menu_item js e b ms).2 = <[menu_new_id e := m]> ms
     ∧ add_itemName b = Some name ∧ Menu.itemName m = trim js name
     ∧ Menu.itemName m ≠ ""
     ∧ 0 ≤ Menu.price m
     ∧ add_stockCount b = Some (Menu.stockCount m)
     ∧ 0 ≤ Menu.stockCount m
     ∧ add_category b = Some cat
     ∧ Category_to_string (Menu.category m)
       = toLowerCase js (toLowerCase js cat)
     ∧ Menu.isAvailable m = (0 <? Menu.stockCount m))
  ∧ (menu_code (add_menu_item js e b ms).1 ≠ 201%nat →
     (add_menu_item js e b ms).2 = ms).
Proof.
  unfold add_menu_item.
  destruct (add_itemName b) as [name|]; [|done].
  destruct (add_price b) as [price|]; [|done].
  destruct (add_stockCount b) as [stock|]; [|done].
  destruct (add_category b) as [cat|]; [|done].
  destruct (bool_decide (name = "") || bool_decide (price = 0)
            || bool_decide (cat = "")) eqn:Hguard; [done|].
  unfold Menu_create.
  destruct (Category_of_string _) as [c|] eqn:Hc; [|done].
  destruct (bool_decide (trim js name = "") || (price <? 0)
            || (stock <? 0)) eqn:Hval; [done|].
  apply orb_false_iff in Hval as [Hval Hs].
  apply orb_false_iff in Hval as [Hn Hp].
  apply bool_decide_eq_false in Hn.
  apply Z.ltb_ge in Hs, Hp.
  destruct (ms !! menu_new_id e) eqn:Hid; [done|].
  simpl. split; [|done]. intros _.
  eexists _, name, cat. split; [reflexivity|]. simpl.
  repeat split; try done.
  by apply Category_of_string_Some.
Qed.

(** X14 on the new item of the scenario, tea with no stock. *)
Lemma add_menu_item_stores_valid_item_witness :
  ∃ m name cat,
    (add_menu_item js_id menu_env tea_body catalog).1
      = MenuJson 201 (MItem "Menu item added successfully"
                            (menu_new_id menu_env, m))
    ∧ catalog !! menu_new_id menu_env = None
    ∧ (add_menu_item js_id menu_env tea_body catalog).2
      = <[menu_new_id menu_env := m]> catalog
    ∧ add_itemName tea_body = Some name
    ∧ Menu.itemName m = trim js_id name
    ∧ Menu.itemName m ≠ ""
    ∧ 0 ≤ Menu.price m
    ∧ add_stockCount tea_body = Some (Menu.stockCount m)
    ∧ 0 ≤ Menu.stockCount m
    ∧ add_category tea_body = Some cat
    ∧ Category_to_string (Menu.category m)
      = toLowerCase js_id (toLowerCase js_id cat)
    ∧ Menu.isAvailable m = (0 <? Menu.stockCount m).
Proof.
  apply (proj1 (add_menu_item_stores_valid_item js_id menu_env tea_body
                  catalog)).
  vm_compute. reflexivity.
Defined.

(** X15. An item that [POST /api/menu/add] has just stored is what
    [GET /api/menu/:id] returns for the new id, and every other id reads
    as before. *)
Theorem add_then_get js e b ms data :
  menu_body (add_menu_item js e b ms).1
    = MItem "Menu item added successfully" data →
  get_menu_item (menu_new_id e) (add_menu_item js e b ms).2
    = MenuJson 200 (MData data)
  ∧ ∀ id, id ≠ menu_new_id e →
      get_menu_item id (add_menu_item js e b ms).2 = get_menu_item id ms.
Proof.
  intros Hbody.
  destruct (add_menu_item_created js e b ms) as [Hok _].
  destruct Hok as (m & _ & _ & Hr & _ & Hms & _).
  { revert Hbody. unfold add_menu_item.
    repeat match goal with
           | |- context [match ?x with _ => _ end] => destruct x
           end; done. }
  rewrite Hr in Hbody. injection Hbody as <-.
  rewrite Hms. unfold get_menu_item. split.
  - by rewrite lookup_insert_eq.
  - intros id Hne. by rewrite lookup_insert_ne.
Qed.

(** X15 on the tea of the scenario. *)
Lemma add_then_get_witness :
  get_menu_item 3 (add_menu_item js_id menu_env tea_body catalog).2
    = MenuJson 200
        (MData (3%N, Menu.mk "Tea" 8 0
                       "https://via.placeholder.com/300x200?text=Food+Item"
                       Menu.beverages false "" 1700000010000
                       1700000010002))
  ∧ ∀ id, id ≠ 3%N →
      get_menu_item id (add_menu_item js_id menu_env tea_body catalog).2
      = get_menu_item id catalog.
Proof.
  apply (add_then_get js_id menu_env tea_body catalog).
  vm_compute. reflexivity.
Defined.

Lemma update_stock_effect_aux id n ms :
  (menu_code (update_stock id n ms).1 = 200%nat ↔
   ∃ v m, n = Some v ∧ 0 ≤ v ∧ ms !! id = Some m)
  ∧ (menu_code (update_stock id n ms).1 ≠ 200%nat →
     (update_stock id n ms).2 = ms)
  ∧ (∀ v m, n = Some v → 0 ≤ v → ms !! id = Some m →
       (update_stock id n ms).2 = <[id := set_stockCount v m]> ms)
  ∧ ∀ k m, ms !! k = Some m →
      ∃ m', (update_stock id n ms).2 !! k = Some m'
            ∧ Menu.itemName m' = Menu.itemName m
            ∧ Menu.price m' = Menu.price m
            ∧ Menu.category m' = Menu.category m
            ∧ Menu.isAvailable m' = Menu.isAvailable m
            ∧ (k ≠ id → m' = m).
Proof.
  assert (∀ k m, ms !! k = Some m →
            ∃ m', ms !! k = Some m'
                  ∧ Menu.itemName m' = Menu.itemName m
                  ∧ Menu.price m' = Menu.price m
                  ∧ Menu.category m' = Menu.category m
                  ∧ Menu.isAvailable m' = Menu.isAvailable m
                  ∧ (k ≠ id → m' = m)) as Hsame by eauto 10.
  unfold update_stock. destruct n as [v|]; simpl.
  - destruct (Z.ltb_spec v 0) as [Hneg|Hpos]; simpl.
    + split; [split; [done|intros (? & ? & [= <-] & ? & _); lia]|].
      split; [done|]. split; [|done]. intros ? ? [= <-] ?. lia.
    + destruct (ms !! id) as [m|] eqn:Hid; simpl.
      * split; [split; [eauto|done]|]. split; [done|].
        split; [by intros ? ? [= <-] _ [= <-]|].
        intros k mk Hk. destruct (decide (k = id)) as [->|Hne].
        -- rewrite lookup_insert_eq. eexists. split; [done|].
           rewrite Hid in Hk. injection Hk as <-. by repeat split.
        -- rewrite lookup_insert_ne by done. eauto 10.
      * split; [split; [done|by intros (? & ? & _ & _ & ?)]|].
        split; [done|]. split; [|done]. by intros ? ? _ _ ?.
  - split; [split; [done|by intros (? & ? & ? & _)]|].
    split; [done|]. split; [|done]. by intros ? ? ?.
Qed.

(** X16. [PATCH /api/menu/:id/stock] refuses a missing or negative count
    with 400 and an unknown id with 404, and then changes nothing.
    Otherwise it is answered 200 and writes the count of that one item:
    no item is added or removed, every other item is untouched, and the
    item keeps its name, price, category and availability flag, which the
    update does not recompute. *)
Theorem update_stock_effect id n ms :
  (menu_code (update_stock id n ms).1 = 200%nat ↔
   ∃ v m, n = Some v ∧ 0 ≤ v ∧ ms !! id = Some m)
  ∧ (menu_code (update_stock id n ms).1 ≠ 200%nat →
     (update_stock id n ms).2 = ms)
  ∧ (∀ v m, n = Some v → 0 ≤ v → ms !! id = Some m →
       (update_stock id n ms).2 = <[id := set_stockCount v m]> ms)
  ∧ ∀ k m, ms !! k = Some m →
      ∃ m', (update_stock id n ms).2 !! k = Some m'
            ∧ Menu.itemName m' = Menu.itemName m
            ∧ Menu.price m' = Menu.price m
            ∧ Menu.category m' = Menu.category m
            ∧ Menu.isAvailable m' = Menu.isAvailable m
            ∧ (k ≠ id → m' = m).
Proof.
  assert (∀ k m, ms !! k = Some m →
            ∃ m', ms !! k = Some m'
                  ∧ Menu.itemName m' = Menu.itemName m
                  ∧ Menu.price m' = Menu.price m
                  ∧ Menu.category m' = Menu.category m
                  ∧ Menu.isAvailable m' = Menu.isAvailable m
                  ∧ (k ≠ id → m' = m)) as Hsame by eauto 10.
  unfold update_stock. destruct n as [v|]; simpl.
  - destruct (Z.ltb_spec v 0) as [Hneg|Hpos]; simpl.
    + split; [split; [done|intros (? & ? & [= <-] & ? & _); lia]|].
      split; [done|]. split; [|done]. intros ? ? [= <-] ?. lia.
    + destruct (ms !! id) as [m|] eqn:Hid; simpl.
      * split; [split; [eauto|done]|]. split; [done|].
        split; [by intros ? ? [= <-] _ [= <-]|].
        intros k mk Hk. destruct (decide (k = id)) as [->|Hne].
        -- rewrite lookup_insert_eq. eexists. split; [done|].
           rewrite Hid in Hk. injection Hk as <-. by repeat split.
        -- rewrite lookup_insert_ne by done. eauto 10.
      * split; [split; [done|by intros (? & ? & _ & _ & ?)]|].
        split; [done|]. split; [|done]. by intros ? ? _ _ ?.
  - split; [split; [done|by intros (? & ? & ? & _)]|].
    split; [done|]. split; [|done]. by intros ? ? ?.
Qed.

(** X16 on item B of the scenario, restocked to four units. *)
Lemma update_stock_effect_witness :
  (update_stock 2 (Some 4) catalog).2
  = <[2%N := set_stockCount 4 itemB]> catalog.
Proof.
  destruct (update_stock_effect 2 (Some 4) catalog) as (_ & _ & Hset & _).
  apply (Hset 4 itemB); [reflexivity|lia|reflexivity].
Defined.

(** X17. An item that was added with no stock is never in the
    [available=true] listing after a stock update, whatever the new count:
    the flag that [POST /api/menu/add] derived from the empty stock is not
    recomputed by [PATCH /api/menu/:id/stock], and the listing asks for
    the flag. *)
Theorem restocked_item_stays_hidden js e b ms n category count data :
  menu_code (add_menu_item js e b ms).1 = 201%nat →
  add_stockCount b = Some 0 →
  get_menu js category (Some "true")
           (update_stock (menu_new_id e) n (add_menu_item js e b ms).2).2
    = MenuJson 200 (MList count data) →
  ∀ m, (menu_new_id e, m) ∉ data.
Proof.
  intros Hadd Hstock Hlist m Hin.
  destruct (add_menu_item_created js e b ms) as [Hok _].
  destruct (Hok Hadd)
    as (m0 & _ & _ & _ & _ & Hms & _ & _ & _ & _ & Hs & _ & _ & _ & Hav).
  rewrite Hstock in Hs. injection Hs as Hs. rewrite <- Hs in Hav.
  destruct (update_stock_effect_aux (menu_new_id e) n
              (add_menu_item js e b ms).2) as (_ & _ & _ & Hframe).
  destruct (Hframe (menu_new_id e) m0) as (m' & Hm' & _ & _ & _ & Hflag & _).
  { rewrite Hms. apply lookup_insert_eq. }
  destruct (get_menu_lists_matching_aux js category (Some "true")
              (update_stock (menu_new_id e) n
                 (add_menu_item js e b ms).2).2)
    as (data' & Hdata' & _ & Hmem & _).
  rewrite Hdata' in Hlist. injection Hlist as _ ->.
  apply Hmem in Hin as (Hlook & _ & Havail).
  destruct (Havail eq_refl) as [Htrue _].
  rewrite Hm' in Hlook. injection Hlook as <-.
  rewrite Hflag, Hav in Htrue. done.
Qed.

(** X17 on the tea of the scenario, restocked to twenty units: the
    listing of available items still holds A and B only. *)
Lemma restocked_item_stays_hidden_witness :
  get_menu js_id None (Some "true")
           (update_stock 3 (Some 20)
              (add_menu_item js_id menu_env tea_body catalog).2).2
    = MenuJson 200 (MList 2 [(1%N, itemA); (2%N, itemB)])
  ∧ (3%N, set_stockCount 20
            (Menu.mk "Tea" 8 0
               "https://via.placeholder.com/300x200?text=Food+Item"
               Menu.beverages false "" 1700000010000 1700000010002))
    ∉ [(1%N, itemA); (2%N, itemB)].
Proof.
  assert (get_menu js_id None (Some "true")
            (update_stock 3 (Some 20)
               (add_menu_item js_id menu_env tea_body catalog).2).2
          = MenuJson 200 (MList 2 [(1%N, itemA); (2%N, itemB)])) as Hlist
    by (vm_compute; reflexivity).
  split; [exact Hlist|].
  apply (restocked_item_stays_hidden js_id menu_env tea_body catalog
           (Some 20) None 2%nat [(1%N, itemA); (2%N, itemB)]).
  - vm_compute. reflexivity.
  - reflexivity.
  - exact Hlist.
Defined.

(** X18. [DELETE /api/menu/:id] is answered 200 exactly when the item
    exists; afterwards the id names no item, every other item is as
    before, reading the id gives 404, and no checkout that asks for the id
    creates an order or changes the database. *)
Theorem delete_menu_item_effect id ms :
  (menu_code (delete_menu_item id ms).1 = 200%nat ↔ is_Some (ms !! id))
  ∧ (delete_menu_item id ms).2 !! id = None
  ∧ (∀ k, k ≠ id → (delete_menu_item id ms).2 !! k = ms !! k)
  ∧ get_menu_item id (delete_menu_item id ms).2
    = MenuJson 404 (MFailure "Menu item not found")
  ∧ ∀ e user gw its os q,
      mkReq id q ∈ its →
      code (checkout e user gw (Some its)
              (mkDb (delete_menu_item id ms).2 os)).1 ≠ 201%nat
      ∧ (checkout e user gw (Some its)
           (mkDb (delete_menu_item id ms).2 os)).2
        = mkDb (delete_menu_item id ms).2 os.
Proof.
  assert ((delete_menu_item id ms).2 !! id = None) as Hgone.
  { unfold delete_menu_item. destruct (ms !! id) eqn:Hid; simpl; [|done].
    apply lookup_delete_eq. }
  split; [|split; [done|split; [|split]]].
  - unfold delete_menu_item. destruct (ms !! id); simpl.
    + split; [eauto|done].
    + split; [done|by intros [? ?]].
  - intros k Hk. unfold delete_menu_item.
    destruct (ms !! id); simpl; [|done]. by apply lookup_delete_ne.
  - unfold get_menu_item. by rewrite Hgone.
  - intros e user gw its os q Hin.
    generalize dependent (delete_menu_item id ms).2. intros ms' Hgone.
    unfold checkout. destruct its as [|x its]; [by apply elem_of_nil in Hin|].
    destruct (checkout_loop _ _ _) as [r|[total new]] eqn:Hloop; simpl.
    + split; [|done].
      apply checkout_loop_inl in Hloop
        as [(? & _ & _ & ->)|(? & ? & _ & _ & _ & ->)]; done.
    + apply checkout_loop_inr in Hloop as (new' & _ & Hsnap).
      simpl in Hsnap.
      apply list_elem_of_lookup in Hin as [i Hi].
      destruct (Forall2_lookup_l _ _ _ _ _ Hsnap Hi)
        as (it & _ & _ & _ & m & Hm & _).
      simpl in Hm. congruence.
Qed.

(** X18 on item B of the scenario: once deleted, the cart of the scenario
    cannot be checked out. *)
Lemma delete_menu_item_effect_witness :
  code (checkout env1 7 NoClient (Some cart)
          (mkDb (delete_menu_item 2 catalog).2 [])).1 ≠ 201%nat
  ∧ (checkout env1 7 NoClient (Some cart)
       (mkDb (delete_menu_item 2 catalog).2 [])).2
    = mkDb (delete_menu_item 2 catalog).2 [].
Proof.
  destruct (delete_menu_item_effect 2 catalog) as (_ & _ & _ & _ & Hco).
  apply (Hco env1 7%N NoClient cart [] 1).
  right. left.
Defined.

(** X19. The menu routes that write keep what the schema asks of every
    stored item: a non-empty name, a price and a stock count that are not
    negative. *)
Theorem menu_routes_keep_schema js r ms :
  map_Forall (λ _ m, menu_item_ok m) ms →
  map_Forall (λ _ m, menu_item_ok m) (handle_menu js r ms).2.
Proof.
  intros Hok. destruct r as [e b|id n|id]; simpl.
  - destruct (decide (menu_code (add_menu_item js e b ms).1 = 201%nat))
      as [Hc|Hc].
    + destruct (proj1 (add_menu_item_created js e b ms) Hc)
        as (m & _ & _ & _ & _ & -> & _ & _ & Hn & Hp & _ & Hs & _).
      apply map_Forall_insert_2; [|done].
      unfold menu_item_ok. by repeat split.
    + by rewrite (proj2 (add_menu_item_created js e b ms) Hc).
  - destruct (decide (menu_code (update_stock id n ms).1 = 200%nat))
      as [Hc|Hc].
    + destruct (update_stock_effect_aux id n ms) as (Hiff & _ & Hset & _).
      apply Hiff in Hc as (v & m & -> & Hv & Hm).
      rewrite (Hset v m eq_refl Hv Hm).
      apply map_Forall_insert_2; [|done].
      destruct (Hok id m Hm) as (? & ? & _).
      unfold menu_item_ok. simpl. done.
    + destruct (update_stock_effect_aux id n ms) as (_ & Hsame & _).
      by rewrite (Hsame Hc).
  - unfold delete_menu_item. destruct (ms !! id); simpl; [|done].
    by apply map_Forall_delete.
Qed.

(** X19 on the catalog of the scenario and the new item. *)
Lemma menu_routes_keep_schema_witness :
  map_Forall (λ _ m, menu_item_ok m)
             (handle_menu js_id (AddItem menu_env tea_body) catalog).2.
Proof.
  apply (menu_routes_keep_schema js_id (AddItem menu_env tea_body) catalog).
  apply map_Forall_insert_2; [by vm_compute|].
  apply map_Forall_insert_2; [by vm_compute|].
  apply map_Forall_empty.
Defined.


(** X21 on the scenario: scanning the token of the active
    order moves it to [scanned]. *)
Lemma lifecycle_without_verify_witness :
  ∃ o', orders (handle env2 (Scan cart_token)
                  (run (checkout_cart ++ [verify_cart]) db0)).2 !! 0%nat
        = Some o'
        ∧ allowed Order.active (Order.status o').
Proof.
  apply (lifecycle_without_verify env2 (Scan cart_token)
           (run (checkout_cart ++ [verify_cart]) db0) 0%nat
           (Order.mk 7 (Order.items cart_order) 40 cart_handle
                     Order.completed cart_token Order.active None None
                     1700000000001)).
  - reflexivity.
  - vm_compute. reflexivity.
Defined.

(** X22 on the scenario: after the scan, a deliver and a
    refused cancel, the token is still refused. *)
Lemma scan_once_without_verify_witness :
  ∃ s, (s = Order.scanned ∨ s = Order.delivered)
       ∧ InvalidState s
           (scan env2 cart_token
              (run [(env2, Deliver 0); (env2, Cancel 0)]
                 (scan env1 cart_token
                    (run (checkout_cart ++ [verify_cart]) db0)).2)).1.
Proof.
  apply (scan_once_without_verify env1 env2 cart_token
           [(env2, Deliver 0%nat); (env2, Cancel 0%nat)]
           (run (checkout_cart ++ [verify_cart]) db0)).
  - vm_compute. reflexivity.
  - repeat constructor.
Defined.

(** ** Checkout totals in the arithmetic of the platform *)

Section Arithmetic.
Context {A : Arith}.

Lemma findOneA_from_Some (p : OrderA.t A → bool) os : ∀ k i o,
  OrderA.findOne_from k p os = Some (i, o) →
  (k ≤ i)%nat ∧ os !! (i - k)%nat = Some o.
Proof.
  induction os as [|a os IH]; intros k i o; simpl; [done|].
  destruct (p a).
  - intros [= <- <-]. replace (k - k)%nat with 0%nat by lia. by split.
  - intros H. apply IH in H as (Hle & Hlk).
    replace (i - k)%nat with (S (i - S k)) by lia. split; [lia|done].
Qed.

Lemma findOneA_Some (p : OrderA.t A → bool) os i o :
  OrderA.findOne p os = Some (i, o) → os !! i = Some o.
Proof.
  intros H. apply findOneA_from_Some in H as (_ & H).
  by rewrite Nat.sub_0_r in H.
Qed.

Lemma pre_saveA_not_active ts rnd (o : OrderA.t A) :
  OrderA.status o ≠ Order.active → OrderA.pre_save ts rnd o = o.
Proof.
  intros H. unfold OrderA.pre_save.
  by rewrite (bool_decide_eq_false_2 _ H).
Qed.

Lemma pre_saveA_keeps ts rnd (o : OrderA.t A) :
  OrderA.items (OrderA.pre_save ts rnd o) = OrderA.items o
  ∧ OrderA.totalAmount (OrderA.pre_save ts rnd o) = OrderA.totalAmount o.
Proof. unfold OrderA.pre_save. by destruct (_ && _). Qed.

(** The loop of the handler, when it runs to its end, has appended the
    snapshots of the requested lines and has added their products to the
    total, in the order of the request. *)
Lemma checkoutA_loop_inr (ms : gmap N (MenuA.t A)) :
  ∀ its acc total its',
    checkoutA_loop ms acc its = inr (total, its') →
    ∃ new, its' = acc.2 ++ new
           ∧ total
             = fold_left
                 (λ acc it, js_add A acc (js_mul A (OrderA.price it)
                                                   (OrderA.quantity it)))
                 new acc.1
           ∧ Forall2 (snapshotA ms) its new.
Proof.
  induction its as [|x its IH]; intros [t l] total its'; simpl.
  - intros [= <- <-]. exists []. rewrite app_nil_r. simpl.
    split; [done|]. split; [done|constructor].
  - unfold checkoutA_line.
    destruct (ms !! reqA_menuItem x) as [m|] eqn:Hm; [|done].
    destruct (js_lt A _ _); [done|].
    intros H. apply IH in H as (new & -> & -> & Hsnap). simpl.
    eexists (_ :: new). rewrite <- app_assoc. simpl.
    split; [done|]. split; [done|].
    constructor; [|done]. unfold snapshotA; simpl. eauto 10.
Qed.

Lemma checkoutA_loop_within (ms : gmap N (MenuA.t A)) : ∀ its acc,
  Forall (within_stockA ms) its →
  ∃ res, checkoutA_loop ms acc its = inr res.
Proof.
  induction its as [|x its IH]; intros acc Hall.
  - by eexists.
  - apply Forall_cons in Hall as [(m & Hm & Hq) Hall]. simpl.
    unfold checkoutA_line. rewrite Hm, Hq. apply IH, Hall.
Qed.

Lemma checkoutA_loop_inl (ms : gmap N (MenuA.t A)) : ∀ its acc r,
  checkoutA_loop ms acc its = inl r → codeA r ≠ 201%nat.
Proof.
  induction its as [|x its IH]; intros acc r; simpl; [done|].
  unfold checkoutA_line.
  destruct (ms !! reqA_menuItem x) as [m|]; [|by intros [= <-]].
  destruct (js_lt A _ _); [by intros [= <-]|]. apply IH.
Qed.

(** The total of the stored lines is the total read off the request. *)
Lemma sum_snapshotA (ms : gmap N (MenuA.t A)) its new : ∀ a,
  Forall2 (snapshotA ms) its new →
  fold_left
    (λ acc it, js_add A acc (js_mul A (OrderA.price it)
                                      (OrderA.quantity it)))
    new a
  = fold_left
      (λ acc r,
         match ms !! reqA_menuItem r with
         | Some m =>
             js_add A acc (js_mul A (MenuA.price m) (reqA_quantity r))
         | None => acc
         end)
      its a.
Proof.
  intros a Hsnap. revert a.
  induction Hsnap as [|x it its new (_ & Hq & m & Hm & _ & Hp) _ IH];
    intros a; simpl; [done|].
  by rewrite Hm, Hq, Hp, IH.
Qed.

Lemma valid_snapshotA (ms : gmap N (MenuA.t A)) its new :
  Forall (line_okA ms) its →
  Forall2 (snapshotA ms) its new →
  forallb OrderA.valid_item new = true.
Proof.
  intros Hok Hsnap.
  induction Hsnap as [|x it its new (_ & Hq & m & Hm & Hn & _) _ IH];
    [done|].
  apply Forall_cons in Hok as [[Hge Hname] Hok]. simpl.
  rewrite IH by done. unfold OrderA.valid_item.
  rewrite Hn, Hq, Hge.
  by rewrite (bool_decide_eq_false_2 _ (Hname m Hm)).
Qed.

(** No handler writes the line items or the total of a stored order. *)
Lemma handleA_keeps e (r : RequestA A) db i o :
  ordersA db !! i = Some o →
  ∃ o', ordersA (handleA e r db).2 !! i = Some o'
        ∧ OrderA.items o' = OrderA.items o
        ∧ OrderA.totalAmount o' = OrderA.totalAmount o.
Proof.
  intros Hi.
  assert (∀ id x x', ordersA db !! id = Some x →
            OrderA.items x' = OrderA.items x →
            OrderA.totalAmount x' = OrderA.totalAmount x →
            ∃ o', <[id := x']> (ordersA db) !! i = Some o'
                  ∧ OrderA.items o' = OrderA.items o
                  ∧ OrderA.totalAmount o' = OrderA.totalAmount o) as Hsave.
  { intros id x x' Hid Hits Htot. destruct (decide (id = i)) as [->|Hne].
    - exists x'. rewrite list_lookup_insert_eq
        by by eapply lookup_lt_Some.
      split; [done|]. rewrite Hid in Hi. injection Hi as ->. by split.
    - exists o. by rewrite list_lookup_insert_ne. }
  destruct r as [user gw items|oid pid sig|qr|id|id]; simpl.
  - unfold checkoutA.
    destruct items as [[|x its]|]; [simpl; eauto| |simpl; eauto].
    destruct (checkoutA_loop _ _ _) as [r|[total its']]; simpl; [eauto|].
    destruct (OrderA.validate _); simpl; [|eauto].
    exists o. split; [by apply lookup_app_l_Some|done].
  - unfold verifyA. simpl.
    destruct (OrderA.findOne _ _) as [[id x]|] eqn:Hf; simpl; [|eauto].
    apply findOneA_Some in Hf.
    destruct (pre_saveA_keeps (clock_save e) (random e)
                     (OrderA.set_status Order.active
                        (OrderA.set_paymentStatus Order.completed x)))
      as [Hits Htot].
    eapply Hsave; [done|by rewrite Hits|by rewrite Htot].
  - unfold scanA.
    destruct (OrderA.findOne _ _) as [[id x]|] eqn:Hf; simpl; [|eauto].
    apply findOneA_Some in Hf.
    destruct (negb _); simpl; [eauto|].
    destruct (pre_saveA_keeps (clock_save e) (random e)
                     (OrderA.set_scannedAt (clock e)
                        (OrderA.set_status Order.scanned x)))
      as [Hits Htot].
    eapply Hsave; [done|by rewrite Hits|by rewrite Htot].
  - unfold deliverA.
    destruct (ordersA db !! id) as [x|] eqn:Hid; simpl; [|eauto].
    destruct (negb _); simpl; [eauto|].
    destruct (pre_saveA_keeps (clock_save e) (random e)
                     (OrderA.set_deliveredAt (clock e)
                        (OrderA.set_status Order.delivered x)))
      as [Hits Htot].
    eapply Hsave; [done|by rewrite Hits|by rewrite Htot].
  - unfold cancelA.
    destruct (ordersA db !! id) as [x|] eqn:Hid; simpl; [|eauto].
    destruct (_ || _); simpl; [eauto|].
    destruct (pre_saveA_keeps (clock_save e) (random e)
                     (OrderA.set_status Order.cancelled x))
      as [Hits Htot].
    eapply Hsave; [done|by rewrite Hits|by rewrite Htot].
Qed.

Lemma runA_keeps (rs : list (Env * RequestA A)) : ∀ db i o,
  ordersA db !! i = Some o →
  ∃ o', ordersA (runA rs db) !! i = Some o'
        ∧ OrderA.items o' = OrderA.items o
        ∧ OrderA.totalAmount o' = OrderA.totalAmount o.
Proof.
  induction rs as [|[e r] rs IH]; intros db i o Hi; [by exists o|].
  destruct (handleA_keeps e r db i o Hi) as (o1 & H1 & Hits & Htot).
  destruct (IH _ _ _ H1) as (o2 & H2 & Hits2 & Htot2).
  exists o2. split; [exact H2|]. split; congruence.
Qed.

(** C7, as the code has it.  A checkout request that is non-empty, names
    catalog items only, passes the stock test on every line and meets the
    validators of the Order schema creates an order.  Whenever checkout
    creates an order, its line items are the requested lines with the name
    and the price the catalog has at that moment, its [totalAmount] is the
    sum of [price * quantity] over them as the handler accumulates it,
    from 0 and line after line in the arithmetic of the platform, and no
    later request changes the line items or the total. *)
Theorem checkoutA_totalAmount e user gw (its : list (ReqItemA A)) db :
  (its ≠ [] →
   Forall (within_stockA (menusA db)) its →
   Forall (line_okA (menusA db)) its →
   js_ge A (request_totalA (menusA db) its) (js_0 A) = true →
   codeA (checkoutA e user gw (Some its) db).1 = 201%nat)
  ∧ (codeA (checkoutA e user gw (Some its) db).1 = 201%nat →
     ∃ o,
       checkoutA e user gw (Some its) db
       = (JsonA 201
            (ACheckout (payment_handle e gw) (length (ordersA db))
                       (js_mul A (OrderA.totalAmount o) (js_100 A)) o),
          mkDbA (menusA db) (ordersA db ++ [o]))
       ∧ Forall2 (snapshotA (menusA db)) its (OrderA.items o)
       ∧ OrderA.totalAmount o = sum_linesA (OrderA.items o)
       ∧ ∀ rs, ∃ o',
           ordersA (runA rs (checkoutA e user gw (Some its) db).2)
             !! length (ordersA db) = Some o'
           ∧ OrderA.items o' = OrderA.items o
           ∧ OrderA.totalAmount o' = OrderA.totalAmount o).
Proof.
  split.
  - intros Hne Hstock Hok Htotal. unfold checkoutA.
    destruct its as [|x its]; [done|].
    destruct (checkoutA_loop_within (menusA db) (x :: its) (js_0 A, [])
                Hstock) as [[total new] Hloop].
    rewrite Hloop.
    apply checkoutA_loop_inr in Hloop as (new' & -> & -> & Hsnap).
    unfold OrderA.validate. simpl.
    rewrite (valid_snapshotA _ _ _ Hok Hsnap).
    rewrite (sum_snapshotA _ _ _ _ Hsnap).
    unfold request_totalA in Htotal. by rewrite Htotal.
  - unfold checkoutA. destruct its as [|x its]; [done|].
    destruct (checkoutA_loop _ _ _) as [r|[total new]] eqn:Hloop.
    { simpl. intros Hr. by apply checkoutA_loop_inl in Hloop. }
    destruct (OrderA.validate _) eqn:Hv; [|done]. intros _.
    apply checkoutA_loop_inr in Hloop as (new' & -> & -> & Hsnap).
    simpl in *.
    rewrite pre_saveA_not_active by done.
    set (o := OrderA.mk user new' _ (payment_handle e gw) Order.pending ""
                        Order.pending_payment None None (clock_save e)).
    exists o. split; [reflexivity|]. simpl.
    split; [done|]. split; [done|].
    intros rs.
    apply (runA_keeps rs (mkDbA (menusA db) (ordersA db ++ [o]))
             (length (ordersA db)) o).
    simpl. by apply list_lookup_middle.
Qed.

End Arithmetic.

Lemma cart64_within_stock : Forall (within_stockA (menusA db64)) cart64.
Proof.
  constructor; [|constructor; [|constructor]].
  - exists itemA64. split; [reflexivity|]. by vm_compute.
  - exists itemB64. split; [reflexivity|]. by vm_compute.
Qed.

Lemma cart64_line_ok : Forall (line_okA (menusA db64)) cart64.
Proof.
  constructor; [|constructor; [|constructor]].
  - split; [by vm_compute|]. intros m. unfold db64. simpl.
    rewrite lookup_insert_eq. by intros [= <-].
  - split; [by vm_compute|]. intros m. unfold db64. simpl.
    rewrite lookup_insert_ne by done. rewrite lookup_insert_eq.
    by intros [= <-].
Qed.

(** C7 on the scenario of the specification, in doubles: two A at 10 and
    one B at 20 pass the checks and give an order whose total is the
    accumulated sum. *)
Lemma checkoutA_totalAmount_witness :
  codeA (checkoutA env1 7 NoClient (Some cart64) db64).1 = 201%nat
  ∧ ∃ o,
      checkoutA env1 7 NoClient (Some cart64) db64
      = (JsonA 201
           (ACheckout (payment_handle env1 NoClient) (length (ordersA db64))
                      (js_mul binary64 (OrderA.totalAmount o)
                              (js_100 binary64)) o),
         mkDbA (menusA db64) (ordersA db64 ++ [o]))
      ∧ Forall2 (snapshotA (menusA db64)) cart64 (OrderA.items o)
      ∧ OrderA.totalAmount o = sum_linesA (OrderA.items o)
      ∧ ∀ rs, ∃ o',
          ordersA (runA rs (checkoutA env1 7 NoClient (Some cart64) db64).2)
            !! length (ordersA db64) = Some o'
          ∧ OrderA.items o' = OrderA.items o
          ∧ OrderA.totalAmount o' = OrderA.totalAmount o.
Proof.
  destruct (@checkoutA_totalAmount binary64 env1 7 NoClient cart64 db64)
    as [Hok Hcreated].
  assert (codeA (checkoutA env1 7 NoClient (Some cart64) db64).1 = 201%nat)
    as H.
  { apply Hok; [discriminate|apply cart64_within_stock|apply cart64_line_ok|].
    by vm_compute. }
  split; [exact H|exact (Hcreated H)].
Defined.

(** C7 as stated fails: three units of an item whose price is 2^53 - 1 are
    checked out with a [totalAmount] of 27021597764222972, while three
    times the price is 27021597764222973, which no double holds. *)
Lemma checkout_total_rounds :
  double_integer (dbl big_price) = Some 9007199254740991
  ∧ double_integer (dbl 3) = Some 3
  ∧ codeA (checkoutA env1 7 NoClient (Some [@mkReqA binary64 1 (dbl 3)])
             db_big).1 = 201%nat
  ∧ OrderA.items
      <$> ordersA (checkoutA env1 7 NoClient
                     (Some [@mkReqA binary64 1 (dbl 3)]) db_big).2 !! 0%nat
    = Some [@OrderA.mkItem binary64 1 "Gold" (dbl 3) (dbl big_price)]
  ∧ (λ o : OrderA.t binary64, double_integer (OrderA.totalAmount o))
      <$> ordersA (checkoutA env1 7 NoClient
                     (Some [@mkReqA binary64 1 (dbl 3)]) db_big).2 !! 0%nat
    = Some (Some 27021597764222972)
  ∧ 3 * 9007199254740991 = 27021597764222973.
Proof. repeat split; by vm_compute. Qed.

(** ** The stock loops in the arithmetic of the platform *)

Section StockLoops.
Context {A : Arith}.

Lemma adjust_stockA_lookup (delta : OrderA.Item A → num A) its :
  ∀ ms k, adjust_stockA delta its ms !! k
          = apply_linesA delta k its <$> ms !! k.
Proof.
  unfold adjust_stockA, apply_linesA.
  induction its as [|it its IH]; intros ms k; simpl.
  - by destruct (ms !! k).
  - rewrite IH. unfold MenuA.findByIdAndUpdate_inc.
    rewrite lookup_alter. case_bool_decide as Hk; subst.
    + rewrite decide_True by done. by destruct (ms !! _).
    + by rewrite decide_False.
Qed.

(** A line that names another item does nothing to this one. *)
Lemma apply_linesA_other (delta : OrderA.Item A → num A) k its :
  ∀ m, Forall (λ it, OrderA.menuItem it ≠ k) its →
       apply_linesA delta k its m = m.
Proof.
  unfold apply_linesA. induction its as [|it its IH]; intros m Hall; [done|].
  apply Forall_cons in Hall as [Hne Hall]. simpl.
  rewrite (bool_decide_eq_false_2 _ Hne). by apply IH.
Qed.

(** The loop writes the stock count only. *)
Lemma apply_linesA_fields (delta : OrderA.Item A → num A) k its :
  ∀ m, MenuA.itemName (apply_linesA delta k its m) = MenuA.itemName m
       ∧ MenuA.price (apply_linesA delta k its m) = MenuA.price m
       ∧ MenuA.category (apply_linesA delta k its m) = MenuA.category m
       ∧ MenuA.isAvailable (apply_linesA delta k its m)
         = MenuA.isAvailable m.
Proof.
  unfold apply_linesA. induction its as [|it its IH]; intros m; [done|].
  simpl. destruct (IH (if bool_decide (OrderA.menuItem it = k)
                       then MenuA.inc_stockCount (delta it) m else m))
    as (-> & -> & -> & ->).
  by case_bool_decide.
Qed.

(** X1. A verify that finds its order applies to every catalog item one
    [$inc] of minus the quantity for each line of the order that names the
    item, in the order of the lines, and nothing else: an item that no
    line names is exactly as it was, an id that names no item still names
    none, and no item changes its name, price, category or availability
    flag. *)
Theorem verifyA_stock e oid pid sig (db : DbA A) id o :
  OrderA.findOne (λ o, bool_decide (OrderA.razorpayOrderId o = oid))
                 (ordersA db) = Some (id, o) →
  ∀ k,
    menusA (verifyA e oid pid sig db).2 !! k
    = apply_linesA (λ it, js_neg A (OrderA.quantity it)) k (OrderA.items o)
        <$> menusA db !! k
    ∧ (Forall (λ it, OrderA.menuItem it ≠ k) (OrderA.items o) →
       menusA (verifyA e oid pid sig db).2 !! k = menusA db !! k)
    ∧ ∀ m', menusA (verifyA e oid pid sig db).2 !! k = Some m' →
        ∃ m, menusA db !! k = Some m
             ∧ MenuA.itemName m' = MenuA.itemName m
             ∧ MenuA.price m' = MenuA.price m
             ∧ MenuA.category m' = MenuA.category m
             ∧ MenuA.isAvailable m' = MenuA.isAvailable m.
Proof.
  intros Hf k. unfold verifyA. simpl. rewrite Hf. simpl.
  rewrite adjust_stockA_lookup. split; [done|]. split.
  - intros Hall. destruct (menusA db !! k) as [m|]; simpl; [|done].
    by rewrite apply_linesA_other.
  - intros m'. destruct (menusA db !! k) as [m|]; simpl; [|done].
    intros [= <-]. exists m. split; [done|]. apply apply_linesA_fields.
Qed.

(** X2. Every cancel of an existing order that is neither scanned nor
    delivered (an order that is already cancelled included) is answered
    200, saves the order as cancelled with every other field as it was,
    and applies to every catalog item one [$inc] of the quantity for each
    line of the order that names the item, in the order of the lines, and
    nothing else. *)
Theorem cancelA_stock e id (db : DbA A) o :
  ordersA db !! id = Some o →
  OrderA.status o ≠ Order.delivered →
  OrderA.status o ≠ Order.scanned →
  codeA (cancelA e id db).1 = 200%nat
  ∧ ordersA (cancelA e id db).2
    = <[id := OrderA.set_status Order.cancelled o]> (ordersA db)
  ∧ ∀ k,
      menusA (cancelA e id db).2 !! k
      = apply_linesA (λ it, OrderA.quantity it) k (OrderA.items o)
          <$> menusA db !! k
      ∧ (Forall (λ it, OrderA.menuItem it ≠ k) (OrderA.items o) →
         menusA (cancelA e id db).2 !! k = menusA db !! k).
Proof.
  intros Hid Hd Hs. unfold cancelA. rewrite Hid.
  rewrite (bool_decide_eq_false_2 _ Hd), (bool_decide_eq_false_2 _ Hs).
  simpl. split; [done|]. split.
  - by rewrite pre_saveA_not_active.
  - intros k. rewrite adjust_stockA_lookup. split; [done|].
    intros Hall. destruct (menusA db !! k) as [m|]; simpl; [|done].
    by rewrite apply_linesA_other.
Qed.

End StockLoops.

(** X1 on the scenario, in doubles: verifying the cart of two A and one B
    takes B from 1 to 0 by one [$inc] of -1. *)
Lemma verifyA_stock_witness :
  menusA (verifyA env1 cart_handle "pay_1" "sig_1"
            (checkoutA env1 7 NoClient (Some cart64) db64).2).2 !! 2%N
  = apply_linesA (λ it, js_neg binary64 (OrderA.quantity it)) 2
                 (OrderA.items cart_order64)
      <$> menusA (checkoutA env1 7 NoClient (Some cart64) db64).2 !! 2%N
  ∧ (λ m : MenuA.t binary64, MenuA.stockCount m)
      <$> menusA (verifyA env1 cart_handle "pay_1" "sig_1"
                    (checkoutA env1 7 NoClient (Some cart64) db64).2).2
          !! 2%N
    = Some (dbl 0).
Proof.
  split; [|by vm_compute].
  assert (OrderA.findOne
            (λ o, bool_decide (OrderA.razorpayOrderId o = cart_handle))
            (ordersA (checkoutA env1 7 NoClient (Some cart64) db64).2)
          = Some (0%nat, cart_order64)) as Hf by reflexivity.
  exact (proj1 (@verifyA_stock binary64 env1 cart_handle "pay_1" "sig_1"
                  (checkoutA env1 7 NoClient (Some cart64) db64).2 0%nat
                  cart_order64 Hf 2%N)).
Defined.

(** X2 on the scenario, in doubles: cancelling the pending cart adds two
    units to A and one to B. *)
Lemma cancelA_stock_witness :
  codeA (cancelA env2 0 (checkoutA env1 7 NoClient (Some cart64) db64).2).1
    = 200%nat
  ∧ (λ m : MenuA.t binary64, MenuA.stockCount m)
      <$> menusA (cancelA env2 0
                    (checkoutA env1 7 NoClient (Some cart64) db64).2).2
          !! 1%N
    = Some (dbl 7).
Proof.
  split; [|by vm_compute].
  assert (ordersA (checkoutA env1 7 NoClient (Some cart64) db64).2 !! 0%nat
          = Some cart_order64) as Hid by reflexivity.
  assert (OrderA.status cart_order64 ≠ Order.delivered) as Hd
    by (simpl; discriminate).
  assert (OrderA.status cart_order64 ≠ Order.scanned) as Hs
    by (simpl; discriminate).
  exact (proj1 (@cancelA_stock binary64 env2 0%nat
                  (checkoutA env1 7 NoClient (Some cart64) db64).2
                  cart_order64 Hid Hd Hs)).
Defined.

(** ** The first model is the second one at the integers *)

Lemma checkout_loop_in ms its : ∀ acc,
  checkoutA_loop (menu_in <$> ms) (acc.1, item_in <$> acc.2) (req_in <$> its)
  = match checkout_loop ms acc its with
    | inl r => inl (response_in r)
    | inr acc' => inr (acc'.1, item_in <$> acc'.2)
    end.
Proof.
  induction its as [|r its IH]; intros acc; [done|].
  simpl. unfold checkoutA_line, checkout_line. simpl.
  rewrite lookup_fmap. destruct (ms !! req_menuItem r) as [m|]; simpl; [|done].
  destruct (Menu.stockCount m <? req_quantity r); [done|].
  rewrite <- IH. simpl. by rewrite fmap_app.
Qed.

Lemma pre_save_in t b o :
  OrderA.pre_save t b (order_in o) = order_in (Order.pre_save t b o).
Proof.
  unfold OrderA.pre_save, Order.pre_save. simpl.
  by destruct (bool_decide _ && bool_decide _).
Qed.

Lemma validate_in o : OrderA.validate (order_in o) = Order.validate o.
Proof.
  unfold OrderA.validate, Order.validate.
  change (OrderA.items (order_in o)) with (item_in <$> Order.items o).
  change (js_ge integers (OrderA.totalAmount (order_in o)) (js_0 integers))
    with (0 <=? Order.totalAmount o).
  f_equal. induction (Order.items o) as [|it its IH]; [done|].
  change (forallb OrderA.valid_item (item_in <$> it :: its))
    with (OrderA.valid_item (item_in it)
          && forallb OrderA.valid_item (item_in <$> its)).
  by rewrite IH.
Qed.

Lemma findOne_from_in (p : Order.t → bool) (q : OrderA.t integers → bool) os :
  (∀ o, q (order_in o) = p o) →
  ∀ i, OrderA.findOne_from i q (order_in <$> os)
       = prod_map id order_in <$> Order.findOne_from i p os.
Proof.
  intros Hpq. induction os as [|o os IH]; intros i; [done|].
  simpl. rewrite Hpq. by destruct (p o).
Qed.

Lemma adjust_stock_in (sign : Z) (delta : OrderA.Item integers → Z) its :
  (∀ it, delta (item_in it) = sign * Order.quantity it) →
  ∀ ms, adjust_stockA delta (item_in <$> its) (menu_in <$> ms)
        = menu_in <$> adjust_stock sign its ms.
Proof.
  intros Hd. unfold adjust_stockA, adjust_stock.
  induction its as [|it its IH]; intros ms; [done|].
  simpl. rewrite <- IH. f_equal.
  unfold MenuA.findByIdAndUpdate_inc, Menu.findByIdAndUpdate_inc.
  rewrite Hd. apply map_eq. intros k.
  rewrite lookup_fmap, !lookup_alter, lookup_fmap.
  case_decide; [|by rewrite lookup_fmap]. by destruct (ms !! _).
Qed.

Lemma handle_integers e r db :
  handleA e (request_in r) (db_in db)
  = (response_in (handle e r db).1, db_in (handle e r db).2).
Proof.
  destruct r as [user gw its|oid pid sig|q|id|id]; simpl.
  - unfold checkoutA, checkout. destruct its as [[|r its]|]; [done| |done].
    pose proof (checkout_loop_in (menus db) (r :: its) (0, [])) as H.
    simpl in H. simpl. rewrite H. clear H.
    destruct (checkout_line _ _ r) as [resp|acc]; [done|].
    destruct (checkout_loop _ acc its) as [resp|[total items]]; [done|].
    simpl.
    change (@OrderA.mk integers user (item_in <$> items) total
              (payment_handle e gw)
              Order.pending "" Order.pending_payment None None
              (clock_save e))
      with (order_in (Order.mk user items total (payment_handle e gw)
              Order.pending "" Order.pending_payment None None
              (clock_save e))).
    rewrite validate_in, pre_save_in.
    destruct (Order.validate _); [|done].
    unfold response_in, db_in. simpl.
    by rewrite fmap_app, length_fmap.
  - unfold verifyA, verify. simpl.
    unfold OrderA.findOne, Order.findOne.
    rewrite (findOne_from_in
               (λ o, bool_decide (Order.razorpayOrderId o = oid))) by done.
    destruct (Order.findOne_from _ _ _) as [[id o]|]; [|done].
    simpl. unfold response_in, db_in. simpl.
    rewrite (adjust_stock_in (-1)) by (intros; simpl; lia).
    change (OrderA.set_status Order.active
              (OrderA.set_paymentStatus Order.completed (order_in o)))
      with (order_in (Order.set_status Order.active
                        (Order.set_paymentStatus Order.completed o))).
    by rewrite list_fmap_insert, pre_save_in.
  - unfold scanA, scan. simpl. unfold OrderA.findOne, Order.findOne.
    rewrite (findOne_from_in
               (λ o, bool_decide (Order.qrCodeData o = q))) by done.
    destruct (Order.findOne_from _ _ _) as [[id o]|]; [|done].
    simpl. destruct (bool_decide (Order.status o = Order.active)); [|done].
    simpl. unfold response_in, db_in. simpl.
    change (OrderA.set_scannedAt (clock e)
              (OrderA.set_status Order.scanned (order_in o)))
      with (order_in (Order.set_scannedAt (clock e)
                        (Order.set_status Order.scanned o))).
    by rewrite list_fmap_insert, pre_save_in.
  - unfold deliverA, deliver. simpl. rewrite list_lookup_fmap.
    destruct (orders db !! id) as [o|]; [|done].
    simpl. destruct (bool_decide (Order.status o = Order.scanned)); [|done].
    simpl. unfold response_in, db_in. simpl.
    change (OrderA.set_deliveredAt (clock e)
              (OrderA.set_status Order.delivered (order_in o)))
      with (order_in (Order.set_deliveredAt (clock e)
                        (Order.set_status Order.delivered o))).
    by rewrite list_fmap_insert, pre_save_in.
  - unfold cancelA, cancel. simpl. rewrite list_lookup_fmap.
    destruct (orders db !! id) as [o|]; [|done].
    simpl. destruct (bool_decide _ || bool_decide _); [done|].
    simpl. unfold response_in, db_in. simpl.
    rewrite (adjust_stock_in 1) by (intros; simpl; lia).
    change (OrderA.set_status Order.cancelled (order_in o))
      with (order_in (Order.set_status Order.cancelled o)).
    by rewrite list_fmap_insert, pre_save_in.
Qed.

Lemma run_integers rs db :
  runA (prod_map id request_in <$> rs) (db_in db) = db_in (run rs db).
Proof.
  revert db. induction rs as [|[e r] rs IH]; intros db; [done|].
  simpl. rewrite handle_integers. simpl. apply IH.
Qed.

(** ** Payment and cancellation in doubles *)

(** X23. A cancellation after the payment does not always give back what
    the payment took.  In doubles, an item with a stock of 4 is ordered
    on two lines, 1.2 and 1.1; checkout answers 201, verify 200 and leaves
    1.6999999999999997, cancel 200 and leaves 3.9999999999999996, which is
    less than 4. *)
Example verify_then_cancel_loses_stock :
  tenths 12 = SpecFloat.S754_finite false 5404319552844595 (-52)
  ∧ tenths 11 = SpecFloat.S754_finite false 4953959590107546 (-52)
  ∧ (λ m : MenuA.t binary64, MenuA.stockCount m)
    <$> menusA db_four !! 1%N = Some (dbl 4)
  ∧ codeA (handleA split_checkout.1 split_checkout.2 db_four).1 = 201%nat
  ∧ codeA (handleA split_verify.1 split_verify.2
             (runA [split_checkout] db_four)).1 = 200%nat
  ∧ (λ m : MenuA.t binary64, MenuA.stockCount m)
    <$> menusA (runA [split_checkout; split_verify] db_four) !! 1%N
    = Some (SpecFloat.S754_finite false 7656119366529842 (-52))
  ∧ codeA (handleA split_cancel.1 split_cancel.2
             (runA [split_checkout; split_verify] db_four)).1 = 200%nat
  ∧ (λ m : MenuA.t binary64, MenuA.stockCount m)
    <$> menusA (runA [split_checkout; split_verify; split_cancel] db_four)
        !! 1%N
    = Some (SpecFloat.S754_finite false 9007199254740991 (-51))
  ∧ SpecFloat.SFltb (SpecFloat.S754_finite false 9007199254740991 (-51))
                    (dbl 4) = true.
Proof. repeat split; vm_compute; reflexivity. Qed.
